(** * Blogicum: visibility and access policy of [blog/views.py]

    A shallow embedding of the class-based views of [blogicum/blog/views.py]
    over an explicit relational store.  Tables are lists of rows, timestamps
    are integers, [timezone.now()] is an argument, and a view returns the
    framework's response (a value, a 404, a redirect, ...) together with the
    store it leaves behind when it writes. *)

From Stdlib Require Import ZArith List String Bool Lia.
From Stdlib Require Import Sorting.Sorted Sorting.Permutation Sorting.Mergesort.
From Stdlib Require Import Structures.Orders Classes.RelationClasses.
Import ListNotations.
Local Open Scope string_scope.
Local Open Scope Z_scope.

(** ** Data model

    [blog/models.py] is not among the sources.  The rows below carry the
    attributes the views read and write ([pk], [username], [slug],
    [is_published], [pub_date], [author], [category], [post]), and for the
    rest follow section 3 of the spec. *)

Module User.
(** Modelled from the spec: the Author entity, an identity with a unique
    handle; here Django's auth user with its key, [username] and the
    profile fields a user form edits. *)
Record t := mk {
  pk : Z;
  username : string;
  first_name : string;
  last_name : string;
  email : string
}.

Definition set_pk (k : Z) (u : t) : t :=
  mk k (username u) (first_name u) (last_name u) (email u).
End User.

Module Category.
(** Modelled from the spec: the Category entity, a grouping label with a
    published flag; [slug] is what [CategoryListView] looks it up by. *)
Record t := mk {
  pk : Z;
  slug : string;
  is_published : bool
}.
End Category.

Module Post.
(** Modelled from the spec: the Post entity, with its title, body,
    publication date, published flag, owning author and owning category.
    [author] is the key of the owning user ([author_id]): the views only
    ever compare [post.author] with another user, and Django compares
    model instances by primary key.  [category] is the related row, as
    [post.category] and the [category__...] lookups of the ORM read it. *)
Record t := mk {
  pk : Z;
  title : string;
  body : string;
  pub_date : Z;
  is_published : bool;
  author : Z;
  category : Category.t
}.

Definition set_pk (k : Z) (p : t) : t :=
  mk k (title p) (body p) (pub_date p) (is_published p) (author p) (category p).

Definition set_author (a : Z) (p : t) : t :=
  mk (pk p) (title p) (body p) (pub_date p) (is_published p) a (category p).

(** [Post()]: the unsaved instance a create form starts from. *)
Definition blank : t := mk 0 "" "" 0 true 0 (Category.mk 0 "" true).
End Post.

Module Comment.
(** Modelled from the spec: the Comment entity, with its body, creation
    date, owning author and owning post; [author] and [post] are the keys
    of the related rows. *)
Record t := mk {
  pk : Z;
  text : string;
  created_at : Z;
  author : Z;
  post : Z
}.

Definition set_pk (k : Z) (c : t) : t :=
  mk k (text c) (created_at c) (author c) (post c).

Definition set_author (a : Z) (c : t) : t :=
  mk (pk c) (text c) (created_at c) a (post c).

Definition set_post (p : Z) (c : t) : t :=
  mk (pk c) (text c) (created_at c) (author c) p.

Definition blank : t := mk 0 "" 0 0 0.
End Comment.

(** The relational store. *)
Record DB := mkDB {
  users : list User.t;
  categories : list Category.t;
  posts : list Post.t;
  comments : list Comment.t
}.

Definition with_users (us : list User.t) (db : DB) : DB :=
  mkDB us (categories db) (posts db) (comments db).
Definition with_posts (ps : list Post.t) (db : DB) : DB :=
  mkDB (users db) (categories db) ps (comments db).
Definition with_comments (cs : list Comment.t) (db : DB) : DB :=
  mkDB (users db) (categories db) (posts db) cs.

(** ** The framework: requests, responses, ORM lookups *)

(** [request.user]: the anonymous user or a row of the user table. *)
Inductive RequestUser :=
| AnonymousUser
| Authenticated (u : User.t).

(** [a == request.user] for a user key [a]: model instances are equal when
    their primary keys are, and [AnonymousUser] equals no row. *)
Definition is_user (a : Z) (v : RequestUser) : bool :=
  match v with
  | AnonymousUser => false
  | Authenticated u => a =? User.pk u
  end.

(** Targets of [reverse(...)] and of the login redirect. *)
Inductive Url :=
| url_login
| url_profile (username : string)        (* 'blog:profile' *)
| url_post_detail (pk : Z).              (* 'blog:post_detail' *)

(** The responses the framework can send. *)
Inductive HttpResponse :=
| TemplateResponse                       (* 200: a page is rendered *)
| Http404                                (* not found *)
| HttpResponseRedirect (to : Url)        (* 302 *)
| PermissionDenied                       (* 403 *)
| ServerError.                           (* 500: an exception nobody catches *)

(** A step of a view either yields a value or stops the request with a
    response ([raise Http404], an early [return redirect(...)]). *)
Inductive Outcome (A : Type) :=
| Ok (a : A)
| Raise (r : HttpResponse).
Arguments Ok {A} a.
Arguments Raise {A} r.

Definition bind {A B} (o : Outcome A) (k : A -> Outcome B) : Outcome B :=
  match o with
  | Ok a => k a
  | Raise r => Raise r
  end.

Notation "x <- o ;; k" := (bind o (fun x => k))
  (at level 61, o at next level, right associativity).

(** A view that may write: the store it leaves and the response it sends. *)
Definition Handled : Type := DB * HttpResponse.

Definition or_respond {A} (db : DB) (o : Outcome A) (k : A -> Handled)
  : Handled :=
  match o with
  | Ok a => k a
  | Raise r => (db, r)
  end.

Module Orm.
(** [QuerySet.get] with a row condition. *)
Inductive GetResult (A : Type) :=
| Found (a : A)
| DoesNotExist
| MultipleObjectsReturned.
Arguments Found {A} a.
Arguments DoesNotExist {A}.
Arguments MultipleObjectsReturned {A}.

Definition get {A} (cond : A -> bool) (rows : list A) : GetResult A :=
  match filter cond rows with
  | [] => DoesNotExist
  | [a] => Found a
  | _ :: _ :: _ => MultipleObjectsReturned
  end.

(** [get_object_or_404]: only [DoesNotExist] becomes a 404. *)
Definition get_object_or_404 {A} (cond : A -> bool) (rows : list A)
  : Outcome A :=
  match get cond rows with
  | Found a => Ok a
  | DoesNotExist => Raise Http404
  | MultipleObjectsReturned => Raise ServerError
  end.

(** The key an auto-increment column gives the next inserted row. *)
Definition next_pk {A} (pk : A -> Z) (rows : list A) : Z :=
  1 + fold_right (fun r m => Z.max (pk r) m) 0 rows.

(** [Model.save()] of an unsaved instance: INSERT with a fresh key. *)
Definition insert {A} (pk : A -> Z) (set_pk : Z -> A -> A)
  (row : A) (rows : list A) : list A :=
  rows ++ [set_pk (next_pk pk rows) row].

(** [Model.save()] of a loaded instance: UPDATE ... WHERE pk = row.pk,
    and an INSERT under that key when the UPDATE matched nothing. *)
Definition update {A} (pk : A -> Z) (row : A) (rows : list A) : list A :=
  if existsb (fun r => pk r =? pk row) rows
  then map (fun r => if pk r =? pk row then row else r) rows
  else rows ++ [row].

(** [Model.delete()]: DELETE ... WHERE pk = k. *)
Definition delete {A} (pk : A -> Z) (k : Z) (rows : list A) : list A :=
  filter (fun r => negb (pk r =? k)) rows.
End Orm.

(** A bound [ModelForm]: whether the submitted data validates, and what
    the cleaned data does to the instance the form is bound to
    ([construct_instance]).  [blog/forms.py] is not among the sources, so
    which fields a form carries is left open: [cleaned] may set any
    attribute, the author included. *)
Record ModelForm (M : Type) := mkForm {
  is_valid : bool;
  cleaned : M -> M
}.
Arguments is_valid {M} _.
Arguments cleaned {M} _ _.

(** [LoginRequiredMixin.dispatch]: an anonymous request is sent to the
    login page ([raise_exception] keeps its default), anyone else goes on. *)
Definition LoginRequiredMixin_dispatch
  (db : DB) (request_user : RequestUser) (k : User.t -> Handled) : Handled :=
  match request_user with
  | AnonymousUser => (db, HttpResponseRedirect url_login)
  | Authenticated u => k u
  end.

(** ** The live predicate

    Section 3 of the spec: a post is live iff it is published, its
    category is published and its date is not in the future.  The views
    write the condition out each time; [live] names it once. *)

Definition live (now : Z) (p : Post.t) : bool :=
  Post.is_published p
  && Category.is_published (Post.category p)
  && (Post.pub_date p <=? now).

(** ** The mixins of [blog/mixins.py] *)

(** Modelled from the spec: the ordering of [CustomListMixin]
    ([blog/mixins.py], not among the sources): newer [pub_date] first,
    equal dates by ascending key (rows get their keys in creation
    order). *)
Module PostOrder <: TotalLeBool.
Definition t := Post.t.
Definition leb (p q : t) : bool :=
  (Post.pub_date q <? Post.pub_date p)
  || ((Post.pub_date p =? Post.pub_date q) && (Post.pk p <=? Post.pk q)).
Theorem leb_total : forall p q, leb p q = true \/ leb q p = true.
Proof.
  intros p q. unfold leb.
  destruct (Z.ltb_spec (Post.pub_date q) (Post.pub_date p)); [now left|].
  destruct (Z.ltb_spec (Post.pub_date p) (Post.pub_date q)); [now right|].
  assert (E : Post.pub_date p = Post.pub_date q) by lia.
  rewrite E, Z.eqb_refl. simpl.
  destruct (Z.leb_spec (Post.pk p) (Post.pk q)); [now left|right].
  apply Z.leb_le. lia.
Qed.
End PostOrder.

Module PostSort := Sort PostOrder.

(** Modelled from the spec: [CustomListMixin.get_queryset], the base
    queryset of the three list views, is in [blog/mixins.py], which is not
    among the sources.  The spec orders every listing by [publishedAt]
    descending and breaks ties by identity/creation order; the comment
    count it annotates each post with is presentation only and left out. *)
Definition CustomListMixin_get_queryset (db : DB) : list Post.t :=
  PostSort.sort (posts db).

(** Modelled from the spec: [canMutate(entity, viewer)], true iff the
    viewer is the entity's author; no role is consulted. *)
Definition canMutate (entity_author : Z) (viewer : RequestUser) : bool :=
  is_user entity_author viewer.

(** Modelled from the spec: [PostChangeMixin.dispatch] ([blog/mixins.py],
    not among the sources).  The post named by [post_id] is looked up; a
    viewer who fails [canMutate] is redirected to the post's page before
    the update or delete handler [k] runs. *)
Definition PostChangeMixin_dispatch
  (db : DB) (request_user : RequestUser) (post_id : Z)
  (k : Post.t -> Handled) : Handled :=
  or_respond db
    (Orm.get_object_or_404 (fun p => Post.pk p =? post_id) (posts db))
    (fun post =>
       if canMutate (Post.author post) request_user then k post
       else (db, HttpResponseRedirect (url_post_detail post_id))).

(** Modelled from the spec: [CommentChangeMixin.dispatch] ([blog/mixins.py],
    not among the sources), the same guard for the comment named by
    [comment_id]; the redirect goes to the page of the post in the URL. *)
Definition CommentChangeMixin_dispatch
  (db : DB) (request_user : RequestUser) (post_id comment_id : Z)
  (k : Comment.t -> Handled) : Handled :=
  or_respond db
    (Orm.get_object_or_404 (fun c => Comment.pk c =? comment_id) (comments db))
    (fun comment =>
       if canMutate (Comment.author comment) request_user then k comment
       else (db, HttpResponseRedirect (url_post_detail post_id))).

(** ** Read views *)

(** [IndexHome.get_queryset] (lines 18-23). *)
Definition IndexHome_get_queryset (db : DB) (now : Z) : list Post.t :=
  filter
    (fun p =>
       Post.is_published p
       && Category.is_published (Post.category p)
       && (Post.pub_date p <=? now))
    (CustomListMixin_get_queryset db).

(** [CategoryListView.get_queryset] (lines 30-41); the category it keeps in
    [self.category] is returned next to the queryset. *)
Definition CategoryListView_get_queryset
  (db : DB) (now : Z) (category_slug : string)
  : Outcome (Category.t * list Post.t) :=
  category <- Orm.get_object_or_404
                (fun c =>
                   String.eqb (Category.slug c) category_slug
                   && Category.is_published c)
                (categories db) ;;
  Ok (category,
      filter
        (fun p =>
           Post.is_published p
           && Category.is_published (Post.category p)
           && (Post.pub_date p <=? now)
           && String.eqb (Category.slug (Post.category p)) category_slug)
        (CustomListMixin_get_queryset db)).

(** [ProfileView.get_queryset] (lines 53-63); the user it keeps in
    [self.author] is returned next to the queryset. *)
Definition ProfileView_get_queryset
  (db : DB) (now : Z) (request_user : RequestUser) (username : string)
  : Outcome (User.t * list Post.t) :=
  author <- Orm.get_object_or_404
              (fun u => String.eqb (User.username u) username)
              (users db) ;;
  let queryset :=
    filter (fun p => Post.author p =? User.pk author)
           (CustomListMixin_get_queryset db) in
  if is_user (User.pk author) request_user then Ok (author, queryset)
  else
    Ok (author,
        filter
          (fun p =>
             (Post.pub_date p <=? now)
             && Post.is_published p
             && Category.is_published (Post.category p))
          queryset).

(** [PostDetailView.get_object] (lines 131-138). *)
Definition PostDetailView_get_object
  (db : DB) (now : Z) (request_user : RequestUser) (kw_pk : Z)
  : Outcome Post.t :=
  post <- Orm.get_object_or_404 (fun p => Post.pk p =? kw_pk) (posts db) ;;
  if negb (is_user (Post.author post) request_user) then
    if negb (Post.is_published post
             && Category.is_published (Post.category post)
             && (Post.pub_date post <=? now))
    then Raise Http404
    else Ok post
  else Ok post.

(** Modelled from the spec: [listVisiblePosts(viewer, filters)], the three
    list routes of [blog/urls.py] (not among the sources) seen as one
    operation: no filter is the home page, a category slug the category
    page, an author handle the profile page. *)
Inductive Filters :=
| no_filter
| by_category (category_slug : string)
| by_profile (username : string).

Definition listVisiblePosts
  (db : DB) (now : Z) (viewer : RequestUser) (filters : Filters)
  : Outcome (list Post.t) :=
  match filters with
  | no_filter => Ok (IndexHome_get_queryset db now)
  | by_category s =>
      r <- CategoryListView_get_queryset db now s ;; Ok (snd r)
  | by_profile n =>
      r <- ProfileView_get_queryset db now viewer n ;; Ok (snd r)
  end.

(** ** Write views (the POST path of each) *)

(** [PostCreateView.form_valid] (lines 93-95) with the [form.save()] and
    redirect to [get_success_url()] (lines 97-101) of its [super()]. *)
Definition PostCreateView_form_valid
  (db : DB) (request_user : User.t) (form_instance : Post.t) : Handled :=
  let instance := Post.set_author (User.pk request_user) form_instance in
  (with_posts (Orm.insert Post.pk Post.set_pk instance (posts db)) db,
   HttpResponseRedirect (url_profile (User.username request_user))).

Definition PostCreateView_post
  (db : DB) (request_user : RequestUser) (form : ModelForm Post.t) : Handled :=
  LoginRequiredMixin_dispatch db request_user (fun u =>
    if is_valid form
    then PostCreateView_form_valid db u (cleaned form Post.blank)
    else (db, TemplateResponse)).

(** [CommentCreateView.form_valid] (lines 158-161) with the save and the
    redirect to [get_success_url()] (lines 163-164). *)
Definition CommentCreateView_form_valid
  (db : DB) (request_user : User.t) (post_instance : Post.t) (post_id : Z)
  (form_instance : Comment.t) : Handled :=
  let instance := Comment.set_author (User.pk request_user) form_instance in
  let instance := Comment.set_post (Post.pk post_instance) instance in
  (with_comments
     (Orm.insert Comment.pk Comment.set_pk instance (comments db)) db,
   HttpResponseRedirect (url_post_detail post_id)).

(** [CommentCreateView.dispatch] (lines 154-156): the post is looked up
    first, then [super().dispatch] runs the login check and the form. *)
Definition CommentCreateView_dispatch
  (db : DB) (request_user : RequestUser) (post_id : Z)
  (form : ModelForm Comment.t) : Handled :=
  or_respond db
    (Orm.get_object_or_404 (fun p => Post.pk p =? post_id) (posts db))
    (fun post_instance =>
       LoginRequiredMixin_dispatch db request_user (fun u =>
         if is_valid form
         then CommentCreateView_form_valid db u post_instance post_id
                (cleaned form Comment.blank)
         else (db, TemplateResponse))).

(** URL keyword arguments as the router hands them over. *)
Definition Kwargs : Type := list (string * string).

(** [ProfileUpdateView.get_object] (lines 77-78). *)
Definition ProfileUpdateView_get_object
  (request_user : User.t) (kwargs : Kwargs) : User.t :=
  request_user.

(** [ProfileUpdateView] (lines 71-84): the form is bound to
    [get_object()], saved under that row's key, and the redirect reads the
    handle of the saved user (the form's instance is [request.user]
    itself). *)
Definition ProfileUpdateView_post
  (db : DB) (request_user : RequestUser) (kwargs : Kwargs)
  (form : ModelForm User.t) : Handled :=
  LoginRequiredMixin_dispatch db request_user (fun u =>
    let object := ProfileUpdateView_get_object u kwargs in
    if is_valid form then
      let saved := User.set_pk (User.pk object) (cleaned form object) in
      (with_users (Orm.update User.pk saved (users db)) db,
       HttpResponseRedirect (url_profile (User.username saved)))
    else (db, TemplateResponse)).

(** [PostUpdateView] (lines 104-109): login check, then the ownership
    guard of [PostChangeMixin], then the update. *)
Definition PostUpdateView_post
  (db : DB) (request_user : RequestUser) (post_id : Z)
  (form : ModelForm Post.t) : Handled :=
  LoginRequiredMixin_dispatch db request_user (fun _ =>
    PostChangeMixin_dispatch db request_user post_id (fun post =>
      if is_valid form then
        let saved := Post.set_pk (Post.pk post) (cleaned form post) in
        (with_posts (Orm.update Post.pk saved (posts db)) db,
         HttpResponseRedirect (url_post_detail post_id))
      else (db, TemplateResponse))).

(** [PostDeleteView] (lines 112-123): login check, ownership guard, then
    the post goes, and its comments with it (the referential deletion of
    dependent comments of section 3 of the spec). *)
Definition PostDeleteView_post
  (db : DB) (request_user : RequestUser) (post_id : Z) : Handled :=
  LoginRequiredMixin_dispatch db request_user (fun u =>
    PostChangeMixin_dispatch db request_user post_id (fun post =>
      (with_comments
         (filter (fun c => negb (Comment.post c =? Post.pk post))
                 (comments db))
         (with_posts (Orm.delete Post.pk (Post.pk post) (posts db)) db),
       HttpResponseRedirect (url_profile (User.username u))))).

(** [CommentUpdateView] (lines 167-169). *)
Definition CommentUpdateView_post
  (db : DB) (request_user : RequestUser) (post_id comment_id : Z)
  (form : ModelForm Comment.t) : Handled :=
  LoginRequiredMixin_dispatch db request_user (fun _ =>
    CommentChangeMixin_dispatch db request_user post_id comment_id
      (fun comment =>
         if is_valid form then
           let saved :=
             Comment.set_pk (Comment.pk comment) (cleaned form comment) in
           (with_comments (Orm.update Comment.pk saved (comments db)) db,
            HttpResponseRedirect (url_post_detail post_id))
         else (db, TemplateResponse))).

(** [CommentDeleteView] (lines 172-178). *)
Definition CommentDeleteView_post
  (db : DB) (request_user : RequestUser) (post_id comment_id : Z) : Handled :=
  LoginRequiredMixin_dispatch db request_user (fun _ =>
    CommentChangeMixin_dispatch db request_user post_id comment_id
      (fun comment =>
         (with_comments
            (Orm.delete Comment.pk (Comment.pk comment) (comments db)) db,
          HttpResponseRedirect (url_post_detail post_id)))).

(** [p] may stand before [q] in a listing: [p] is newer, or they carry
    the same date and [p]'s key is not the larger one. *)
Definition listed_before (p q : Post.t) : Prop :=
  Post.pub_date q < Post.pub_date p
  \/ (Post.pub_date p = Post.pub_date q /\ Post.pk p <= Post.pk q).

(** The user rows under a key other than the viewer's. *)
Definition other_users (viewer : RequestUser) (rows : list User.t)
  : list User.t :=
  filter (fun r => negb (is_user (User.pk r) viewer)) rows.

(** Submitted data that also name an author: the form's cleaned data put
    [a] into the instance's author on top of what [form] does. *)
Definition post_form_naming_author (a : Z) (form : ModelForm Post.t)
  : ModelForm Post.t :=
  mkForm Post.t (is_valid form) (fun i => Post.set_author a (cleaned form i)).

Definition comment_form_naming_author (a : Z) (form : ModelForm Comment.t)
  : ModelForm Comment.t :=
  mkForm Comment.t (is_valid form)
         (fun i => Comment.set_author a (cleaned form i)).

(** Where a rejected edit or delete of something under post [post_id]
    sends the viewer: the login page, or the page of the post. *)
Definition rejection_target (viewer : RequestUser) (post_id : Z) : Url :=
  match viewer with
  | AnonymousUser => url_login
  | Authenticated _ => url_post_detail post_id
  end.

(** ** Template contexts *)

(** A Python [dict] with string keys, in insertion order. *)
Module Dict.
Definition t (V : Type) : Type := list (string * V).

(** [d.get(k)] *)
Fixpoint get {V} (k : string) (d : t V) : option V :=
  match d with
  | [] => None
  | (k', v) :: d' => if String.eqb k' k then Some v else get k d'
  end.

(** [k in d] *)
Definition contains {V} (k : string) (d : t V) : bool :=
  match get k d with
  | Some _ => true
  | None => false
  end.

(** [d[k] = v]: an existing key keeps its place, a new one goes last. *)
Fixpoint set {V} (k : string) (v : V) (d : t V) : t V :=
  match d with
  | [] => [(k, v)]
  | (k', v') :: d' =>
      if String.eqb k' k then (k, v) :: d' else (k', v') :: set k v d'
  end.

(** [del d[k]] *)
Definition del {V} (k : string) (d : t V) : t V :=
  filter (fun kv => negb (String.eqb (fst kv) k)) d.
End Dict.

(** What the views put into a template context. *)
Inductive ContextValue :=
| ctx_category (c : Category.t)
| ctx_user (u : User.t)
| ctx_comments (cs : list Comment.t)
| ctx_comment_form                       (* [CommentForm()] *)
| ctx_post_form (instance : Post.t)      (* [PostForm(instance=...)] *)
| ctx_other (v : string).                (* whatever [super()] put there *)

Definition Context : Type := Dict.t ContextValue.

(** [CategoryListView.get_context_data] (lines 43-46); [super_context] is
    what the [get_context_data] of [super()] returned. *)
Definition CategoryListView_get_context_data
  (self_category : Category.t) (super_context : Context) : Context :=
  Dict.set "category" (ctx_category self_category) super_context.

(** [ProfileView.get_context_data] (lines 65-68). *)
Definition ProfileView_get_context_data
  (self_author : User.t) (super_context : Context) : Context :=
  Dict.set "profile" (ctx_user self_author) super_context.

(** [PostDeleteView.get_context_data] (lines 114-117). *)
Definition PostDeleteView_get_context_data
  (self_object : Post.t) (super_context : Context) : Context :=
  Dict.set "form" (ctx_post_form self_object) super_context.

(** [self.object.comments]: the comments whose post is the object.  The
    order the related manager returns them in is set in [blog/models.py]
    and not modelled: the rows come in table order. *)
Definition Post_comments (db : DB) (object : Post.t) : list Comment.t :=
  filter (fun c => Comment.post c =? Post.pk object) (comments db).

(** [PostDetailView.get_context_data] (lines 140-146). *)
Definition PostDetailView_get_context_data
  (db : DB) (self_object : Post.t) (super_context : Context) : Context :=
  let context := Dict.set "form" ctx_comment_form super_context in
  Dict.set "comments" (ctx_comments (Post_comments db self_object)) context.

(** [CommentDeleteView.get_context_data] (lines 174-178). *)
Definition CommentDeleteView_get_context_data
  (super_context : Context) : Context :=
  if Dict.contains "form" super_context
  then Dict.del "form" super_context
  else super_context.

(** The GET path of [PostDetailView]: [get_object], then the context the
    template is rendered with. *)
Definition PostDetailView_get
  (db : DB) (now : Z) (request_user : RequestUser) (kw_pk : Z)
  (super_context : Context) : Outcome Context :=
  object <- PostDetailView_get_object db now request_user kw_pk ;;
  Ok (PostDetailView_get_context_data db object super_context).

(** The GET path of [CategoryListView]: [get_queryset], then the context. *)
Definition CategoryListView_get
  (db : DB) (now : Z) (category_slug : string) (super_context : Context)
  : Outcome (list Post.t * Context) :=
  r <- CategoryListView_get_queryset db now category_slug ;;
  Ok (snd r, CategoryListView_get_context_data (fst r) super_context).

(** The GET path of [ProfileView]: [get_queryset], then the context. *)
Definition ProfileView_get
  (db : DB) (now : Z) (request_user : RequestUser) (username : string)
  (super_context : Context) : Outcome (list Post.t * Context) :=
  r <- ProfileView_get_queryset db now request_user username ;;
  Ok (snd r, ProfileView_get_context_data (fst r) super_context).

(** ** A small store to run the views on *)

Module Sample.
Definition alice : User.t := User.mk 1 "alice" "Alice" "A" "alice@example.org".
Definition bob : User.t := User.mk 2 "bob" "Bob" "B" "bob@example.org".

Definition travel : Category.t := Category.mk 1 "travel" true.
Definition hidden : Category.t := Category.mk 2 "hidden" false.

(** [now] is 100: date 50 is in the past, date 200 in the future. *)
Definition now : Z := 100.

Definition live_post : Post.t := Post.mk 1 "Hello" "..." 50 true 1 travel.
Definition draft : Post.t := Post.mk 2 "Draft" "..." 50 false 1 travel.
Definition future : Post.t := Post.mk 3 "Soon" "..." 200 true 1 travel.
Definition in_hidden : Post.t := Post.mk 4 "Quiet" "..." 50 true 1 hidden.
Definition bobs : Post.t := Post.mk 5 "Bob's" "..." 50 true 2 travel.

Definition remark : Comment.t := Comment.mk 1 "Nice" 60 1 1.

Definition db : DB :=
  mkDB [alice; bob] [travel; hidden]
       [live_post; draft; future; in_hidden; bobs] [remark].

(** A comment form and a post form whose data also name an author. *)
Definition comment_form : ModelForm Comment.t :=
  mkForm Comment.t true (fun c => Comment.mk (Comment.pk c) "Hi" 100 1 (Comment.post c)).
Definition post_form : ModelForm Post.t :=
  mkForm Post.t true (fun p => Post.mk (Post.pk p) "New" "text" 90 true 1 travel).
Definition user_form : ModelForm User.t :=
  mkForm User.t true (fun u => User.mk (User.pk u) "bobby" "Bob" "B" (User.email u)).
End Sample.

(** ** Lookups by key *)

Section OrmFacts.
Context {A : Type}.
Variable pk : A -> Z.

Lemma filter_none (cond : A -> bool) (rows : list A) :
  (forall r, In r rows -> cond r = false) -> filter cond rows = [].
Proof.
  induction rows as [|r rows IH]; intros H; simpl; [reflexivity|].
  rewrite (H r (or_introl eq_refl)). apply IH.
  intros r' Hr'. apply H. now right.
Qed.

Lemma filter_by_key (rows : list A) (r : A) :
  NoDup (map pk rows) -> In r rows ->
  filter (fun x => pk x =? pk r) rows = [r].
Proof.
  induction rows as [|x rows IH]; intros Hnd Hin; [contradiction|].
  simpl in Hnd. inversion Hnd as [|k ks Hnotin Hnd']; subst.
  simpl. destruct Hin as [->|Hin].
  - rewrite Z.eqb_refl. f_equal. apply filter_none.
    intros r' Hr'. apply Z.eqb_neq. intros E.
    apply Hnotin. rewrite <- E. now apply in_map.
  - destruct (Z.eqb_spec (pk x) (pk r)) as [E|_].
    + exfalso. apply Hnotin. rewrite E. now apply in_map.
    + now apply IH.
Qed.

Lemma get_by_key (rows : list A) (r : A) :
  NoDup (map pk rows) -> In r rows ->
  Orm.get (fun x => pk x =? pk r) rows = Orm.Found r.
Proof.
  intros Hnd Hin. unfold Orm.get. now rewrite filter_by_key.
Qed.

Lemma get_none (cond : A -> bool) (rows : list A) :
  (forall r, In r rows -> cond r = false) ->
  Orm.get cond rows = Orm.DoesNotExist.
Proof. intros H. unfold Orm.get. now rewrite filter_none. Qed.

Lemma get_found (cond : A -> bool) (rows : list A) (a : A) :
  Orm.get cond rows = Orm.Found a -> In a rows /\ cond a = true.
Proof.
  unfold Orm.get. intros H.
  assert (Hin : In a (filter cond rows)).
  { destruct (filter cond rows) as [|x [|y l]]; try discriminate.
    injection H as ->. now left. }
  now apply filter_In in Hin.
Qed.

Lemma get_object_or_404_by_key (rows : list A) (r : A) :
  NoDup (map pk rows) -> In r rows ->
  Orm.get_object_or_404 (fun x => pk x =? pk r) rows = Ok r.
Proof.
  intros Hnd Hin. unfold Orm.get_object_or_404. now rewrite get_by_key.
Qed.

Lemma get_object_or_404_none (cond : A -> bool) (rows : list A) :
  (forall r, In r rows -> cond r = false) ->
  Orm.get_object_or_404 cond rows = Raise Http404.
Proof. intros H. unfold Orm.get_object_or_404. now rewrite get_none. Qed.

Lemma get_object_or_404_found (cond : A -> bool) (rows : list A) (a : A) :
  Orm.get_object_or_404 cond rows = Ok a -> In a rows /\ cond a = true.
Proof.
  unfold Orm.get_object_or_404. intros H. apply get_found.
  destruct (Orm.get cond rows); try discriminate. now injection H as ->.
Qed.
End OrmFacts.

Lemma Sample_posts_keys : NoDup (map Post.pk (posts Sample.db)).
Proof. simpl. repeat (constructor; [simpl; lia|]). constructor. Qed.

Lemma Sample_comments_keys : NoDup (map Comment.pk (comments Sample.db)).
Proof. simpl. repeat (constructor; [simpl; lia|]). constructor. Qed.

(** The condition the views write out is the live predicate. *)
Lemma live_iff (now : Z) (p : Post.t) :
  live now p = true <->
  Post.is_published p = true
  /\ Category.is_published (Post.category p) = true
  /\ Post.pub_date p <= now.
Proof.
  unfold live. rewrite !andb_true_iff, Z.leb_le. tauto.
Qed.

(** ** Post detail *)

(** C1: for a post P of the store and a viewer who is not its author, the
    detail read returns P exactly when P is live (published, in a published
    category, dated now or earlier); when P is not live it raises the 404
    that a key naming no post raises, and never a permission-denied
    response. *)
Theorem C1_detail_other_viewer_sees_live_only
  (db : DB) (now : Z) (viewer : RequestUser) (P : Post.t) :
  NoDup (map Post.pk (posts db)) ->
  In P (posts db) ->
  is_user (Post.author P) viewer = false ->
  (PostDetailView_get_object db now viewer (Post.pk P) = Ok P
   <-> Post.is_published P = true
       /\ Category.is_published (Post.category P) = true
       /\ Post.pub_date P <= now)
  /\ (live now P = false ->
      PostDetailView_get_object db now viewer (Post.pk P) = Raise Http404)
  /\ (forall absent : Z,
        (forall q, In q (posts db) -> Post.pk q <> absent) ->
        PostDetailView_get_object db now viewer absent = Raise Http404)
  /\ PostDetailView_get_object db now viewer (Post.pk P) <> Raise PermissionDenied.
Proof.
  intros Hnd Hin Hother.
  assert (Hrun : PostDetailView_get_object db now viewer (Post.pk P)
                 = if live now P then Ok P else Raise Http404).
  { unfold PostDetailView_get_object.
    rewrite (get_object_or_404_by_key Post.pk _ _ Hnd Hin). simpl.
    rewrite Hother. simpl. fold (live now P). now destruct (live now P). }
  rewrite <- live_iff. rewrite Hrun.
  split; [|split; [|split]].
  - split; [|intros ->; reflexivity].
    destruct (live now P); [reflexivity|discriminate].
  - intros ->. reflexivity.
  - intros absent Habs. unfold PostDetailView_get_object.
    rewrite get_object_or_404_none; [reflexivity|].
    intros q Hq. apply Z.eqb_neq. now apply Habs.
  - destruct (live now P); discriminate.
Qed.

Lemma C1_witness :
  PostDetailView_get_object Sample.db Sample.now (Authenticated Sample.bob) 3
  = Raise Http404
  /\ PostDetailView_get_object Sample.db Sample.now AnonymousUser 1
     = Ok Sample.live_post.
Proof.
  split.
  - destruct (C1_detail_other_viewer_sees_live_only
                Sample.db Sample.now (Authenticated Sample.bob) Sample.future
                Sample_posts_keys (or_intror (or_intror (or_introl eq_refl)))
                eq_refl) as (_ & Hhidden & _).
    apply Hhidden. reflexivity.
  - destruct (C1_detail_other_viewer_sees_live_only
                Sample.db Sample.now AnonymousUser Sample.live_post
                Sample_posts_keys (or_introl eq_refl) eq_refl)
      as (Hlive & _).
    apply Hlive. repeat split. unfold Sample.now. simpl. lia.
Defined.

(** C2: for a post P of the store and a viewer who is its author, the
    detail read returns P whatever its published flag, its category's
    flag and its date are. *)
Theorem C2_detail_author_sees_own_post
  (db : DB) (now : Z) (viewer : RequestUser) (P : Post.t) :
  NoDup (map Post.pk (posts db)) ->
  In P (posts db) ->
  is_user (Post.author P) viewer = true ->
  PostDetailView_get_object db now viewer (Post.pk P) = Ok P.
Proof.
  intros Hnd Hin Hown. unfold PostDetailView_get_object.
  rewrite (get_object_or_404_by_key Post.pk _ _ Hnd Hin). simpl.
  now rewrite Hown.
Qed.

Lemma C2_witness :
  PostDetailView_get_object Sample.db Sample.now (Authenticated Sample.alice) 2
  = Ok Sample.draft
  /\ PostDetailView_get_object Sample.db Sample.now (Authenticated Sample.alice) 3
     = Ok Sample.future
  /\ PostDetailView_get_object Sample.db Sample.now (Authenticated Sample.alice) 4
     = Ok Sample.in_hidden.
Proof.
  split; [|split].
  - apply (C2_detail_author_sees_own_post
             Sample.db Sample.now (Authenticated Sample.alice) Sample.draft
             Sample_posts_keys (or_intror (or_introl eq_refl)) eq_refl).
  - apply (C2_detail_author_sees_own_post
             Sample.db Sample.now (Authenticated Sample.alice) Sample.future
             Sample_posts_keys (or_intror (or_intror (or_introl eq_refl)))
             eq_refl).
  - apply (C2_detail_author_sees_own_post
             Sample.db Sample.now (Authenticated Sample.alice) Sample.in_hidden
             Sample_posts_keys
             (or_intror (or_intror (or_intror (or_introl eq_refl)))) eq_refl).
Defined.

(** ** The order of a listing *)


Lemma leb_listed_before (p q : Post.t) :
  PostOrder.leb p q = true <-> listed_before p q.
Proof.
  unfold PostOrder.leb, listed_before.
  rewrite orb_true_iff, andb_true_iff, Z.ltb_lt, Z.eqb_eq, Z.leb_le.
  tauto.
Qed.

Lemma leb_transitive : Transitive (fun p q => is_true (PostOrder.leb p q)).
Proof.
  intros p q r Hpq Hqr. unfold is_true in *.
  rewrite leb_listed_before in *. unfold listed_before in *. lia.
Qed.

Section SortedLists.
Context {A : Type}.
Variable R : A -> A -> Prop.

Lemma StronglySorted_filter (f : A -> bool) (l : list A) :
  StronglySorted R l -> StronglySorted R (filter f l).
Proof.
  induction 1 as [|x l Hl IH Hx]; simpl; [constructor|].
  destruct (f x); [|exact IH].
  constructor; [exact IH|].
  rewrite Forall_forall in *. intros y Hy.
  apply Hx. apply filter_In in Hy. tauto.
Qed.

Lemma StronglySorted_weaken (S : A -> A -> Prop) (l : list A) :
  (forall x y, R x y -> S x y) ->
  StronglySorted R l -> StronglySorted S l.
Proof.
  intros HRS. induction 1 as [|x l Hl IH Hx]; constructor; [exact IH|].
  rewrite Forall_forall in *. auto.
Qed.

(** Two sorted arrangements of the same rows coincide as soon as [R] is
    antisymmetric on those rows. *)
Lemma sorted_arrangement_unique (l1 : list A) :
  forall l2,
    (forall x y, In x l1 -> In y l1 -> R x y -> R y x -> x = y) ->
    StronglySorted R l1 -> StronglySorted R l2 ->
    Permutation l1 l2 -> l1 = l2.
Proof.
  induction l1 as [|a l1 IH]; intros l2 Hanti S1 S2 HP.
  - symmetry. now apply Permutation_nil.
  - destruct l2 as [|b l2].
    { symmetry in HP. now apply Permutation_nil in HP. }
    apply StronglySorted_inv in S1. destruct S1 as [S1 Fa].
    apply StronglySorted_inv in S2. destruct S2 as [S2 Fb].
    rewrite Forall_forall in Fa, Fb.
    assert (Hab : a = b).
    { assert (Hb : In b (a :: l1)).
      { apply Permutation_in with (b :: l2);
          [now symmetry | now left]. }
      assert (Ha : In a (b :: l2)).
      { apply Permutation_in with (a :: l1); [exact HP | now left]. }
      destruct Hb as [Hb|Hb]; [exact Hb|].
      destruct Ha as [Ha|Ha]; [now symmetry|].
      apply Hanti; [now left | now right | now apply Fa | now apply Fb]. }
    subst b. f_equal.
    apply IH; trivial.
    + intros x y Hx Hy. apply Hanti; now right.
    + now apply Permutation_cons_inv with a.
Qed.
End SortedLists.

Lemma sort_In (l : list Post.t) (p : Post.t) :
  In p (PostSort.sort l) <-> In p l.
Proof.
  split; intros H.
  - apply Permutation_in with (PostSort.sort l); trivial.
    symmetry. apply PostSort.Permuted_sort.
  - apply Permutation_in with l; trivial. apply PostSort.Permuted_sort.
Qed.

Lemma sort_sorted (l : list Post.t) :
  StronglySorted listed_before (PostSort.sort l).
Proof.
  apply StronglySorted_weaken
    with (R := fun p q => is_true (PostOrder.leb p q)).
  - intros p q H. now apply leb_listed_before.
  - apply PostSort.StronglySorted_sort. exact leb_transitive.
Qed.

Lemma key_determines_row {A : Type} (pk : A -> Z) (l : list A) (x y : A) :
  NoDup (map pk l) -> In x l -> In y l -> pk x = pk y -> x = y.
Proof.
  induction l as [|a l IH]; intros Hnd Hx Hy E; [contradiction|].
  simpl in Hnd. inversion Hnd as [|k ks Hnotin Hnd']; subst.
  destruct Hx as [->|Hx], Hy as [->|Hy]; trivial.
  - exfalso. apply Hnotin. rewrite E. now apply in_map.
  - exfalso. apply Hnotin. rewrite <- E. now apply in_map.
  - now apply IH.
Qed.

(** The base queryset does not depend on the order of the rows in the
    table, as long as keys are unique. *)
Lemma sort_of_permutation (l1 l2 : list Post.t) :
  NoDup (map Post.pk l1) -> Permutation l1 l2 ->
  PostSort.sort l1 = PostSort.sort l2.
Proof.
  intros Hnd HP.
  apply sorted_arrangement_unique with (R := listed_before).
  - intros x y Hx Hy Hxy Hyx.
    apply (key_determines_row Post.pk l1); trivial.
    + now apply sort_In.
    + now apply sort_In.
    + unfold listed_before in *. lia.
  - apply sort_sorted.
  - apply sort_sorted.
  - transitivity l1; [symmetry; apply PostSort.Permuted_sort|].
    transitivity l2; [exact HP | apply PostSort.Permuted_sort].
Qed.

(** ** Listings *)

Lemma base_queryset_In (db : DB) (p : Post.t) :
  In p (CustomListMixin_get_queryset db) <-> In p (posts db).
Proof. apply sort_In. Qed.

(** The home page lists exactly the live rows of the post table. *)
Lemma IndexHome_In (db : DB) (now : Z) (p : Post.t) :
  In p (IndexHome_get_queryset db now) <-> In p (posts db) /\ live now p = true.
Proof.
  unfold IndexHome_get_queryset. rewrite filter_In, base_queryset_In.
  reflexivity.
Qed.

(** C4: every post of the default listing, as an anonymous viewer gets it,
    is published, sits in a published category and is dated now or
    earlier; a post that is unpublished, dated in the future or in an
    unpublished category is not in it. *)
Theorem C4_home_listing_is_live
  (db : DB) (now : Z) (l : list Post.t) (p : Post.t) :
  listVisiblePosts db now AnonymousUser no_filter = Ok l ->
  In p l ->
  Post.is_published p = true
  /\ Category.is_published (Post.category p) = true
  /\ Post.pub_date p <= now.
Proof.
  simpl. intros [= <-] Hin.
  apply IndexHome_In in Hin. now apply live_iff.
Qed.

Lemma C4_witness :
  Post.is_published Sample.bobs = true
  /\ Category.is_published (Post.category Sample.bobs) = true
  /\ Post.pub_date Sample.bobs <= Sample.now.
Proof.
  apply (C4_home_listing_is_live Sample.db Sample.now
           [Sample.live_post; Sample.bobs] Sample.bobs eq_refl).
  simpl. tauto.
Defined.

(** C5: on the profile page of an author, a viewer who is that author
    gets every post of the author, live or not; any other viewer gets the
    author's live posts only. *)
Theorem C5_profile_owner_sees_everything
  (db : DB) (now : Z) (viewer : RequestUser) (username : string)
  (thatAuthor : User.t) :
  Orm.get (fun u => String.eqb (User.username u) username) (users db)
  = Orm.Found thatAuthor ->
  exists l,
    ProfileView_get_queryset db now viewer username = Ok (thatAuthor, l)
    /\ (is_user (User.pk thatAuthor) viewer = true ->
        forall p, In p l <->
                  In p (posts db) /\ Post.author p = User.pk thatAuthor)
    /\ (is_user (User.pk thatAuthor) viewer = false ->
        forall p, In p l <->
                  In p (posts db) /\ Post.author p = User.pk thatAuthor
                  /\ live now p = true).
Proof.
  intros Hget. unfold ProfileView_get_queryset, Orm.get_object_or_404.
  rewrite Hget. simpl.
  destruct (is_user (User.pk thatAuthor) viewer) eqn:Hown;
    eexists; (split; [reflexivity|]); split; intros Hv p;
    try discriminate.
  - rewrite filter_In, base_queryset_In, Z.eqb_eq. reflexivity.
  - rewrite !filter_In, base_queryset_In, Z.eqb_eq.
    unfold live. rewrite !andb_true_iff. tauto.
Qed.

Lemma C5_witness :
  exists l,
    ProfileView_get_queryset Sample.db Sample.now
      (Authenticated Sample.alice) "alice" = Ok (Sample.alice, l)
    /\ In Sample.draft l /\ In Sample.future l /\ In Sample.in_hidden l.
Proof.
  destruct (C5_profile_owner_sees_everything
              Sample.db Sample.now (Authenticated Sample.alice) "alice"
              Sample.alice eq_refl) as (l & Hrun & Hown & _).
  exists l. split; [exact Hrun|].
  pose proof (Hown eq_refl) as Hall.
  repeat split; apply Hall; simpl; tauto.
Defined.

(** C6: the category page lists exactly the live posts whose category
    carries the slug, and only for a published category: when no category
    has the slug, or the one that has it is unpublished, the request is
    answered with the 404. *)
Theorem C6_category_listing
  (db : DB) (now : Z) (category_slug : string) :
  (forall c l,
      CategoryListView_get_queryset db now category_slug = Ok (c, l) ->
      In c (categories db)
      /\ Category.slug c = category_slug
      /\ Category.is_published c = true
      /\ forall p, In p l <->
                   In p (posts db) /\ live now p = true
                   /\ Category.slug (Post.category p) = category_slug)
  /\ ((forall c, In c (categories db) ->
                 Category.slug c = category_slug ->
                 Category.is_published c = false) ->
      CategoryListView_get_queryset db now category_slug = Raise Http404).
Proof.
  unfold CategoryListView_get_queryset. split.
  - intros c l Hrun.
    destruct (Orm.get_object_or_404 _ (categories db)) as [c'|r] eqn:Hget;
      simpl in Hrun; [|discriminate].
    injection Hrun as -> <-.
    apply get_object_or_404_found in Hget. destruct Hget as [Hin Hc].
    apply andb_true_iff in Hc. destruct Hc as [Hslug Hpub].
    apply String.eqb_eq in Hslug.
    split; [exact Hin|]. split; [exact Hslug|]. split; [exact Hpub|].
    intros p. rewrite filter_In, base_queryset_In.
    unfold live. rewrite !andb_true_iff, String.eqb_eq. tauto.
  - intros Hnone. rewrite get_object_or_404_none; [reflexivity|].
    intros c Hin. destruct (String.eqb_spec (Category.slug c) category_slug)
      as [E|_]; simpl; [|reflexivity].
    now apply Hnone.
Qed.

Lemma C6_witness :
  CategoryListView_get_queryset Sample.db Sample.now "hidden" = Raise Http404
  /\ CategoryListView_get_queryset Sample.db Sample.now "absent" = Raise Http404.
Proof.
  split.
  - apply (C6_category_listing Sample.db Sample.now "hidden").
    simpl. intros c [<-|[<-|[]]]; simpl; [discriminate|reflexivity].
  - apply (C6_category_listing Sample.db Sample.now "absent").
    simpl. intros c [<-|[<-|[]]]; simpl; discriminate.
Defined.

(** Each list view filters the base queryset, so it keeps its order. *)
Lemma listing_is_filtered_base
  (db : DB) (now : Z) (viewer : RequestUser) (filters : Filters)
  (l : list Post.t) :
  listVisiblePosts db now viewer filters = Ok l ->
  exists f, l = filter f (CustomListMixin_get_queryset db).
Proof.
  destruct filters as [|s|n]; simpl.
  - intros [= <-]. eexists. reflexivity.
  - unfold CategoryListView_get_queryset.
    destruct (Orm.get_object_or_404 _ (categories db)); simpl;
      [|discriminate].
    intros [= <-]. eexists. reflexivity.
  - unfold ProfileView_get_queryset.
    destruct (Orm.get_object_or_404 _ (users db)) as [a|]; simpl;
      [|discriminate].
    destruct (is_user (User.pk a) viewer); simpl; intros [= <-].
    + eexists. reflexivity.
    + exists (fun p =>
                (Post.author p =? User.pk a)
                && ((Post.pub_date p <=? now)
                    && Post.is_published p
                    && Category.is_published (Post.category p))).
      induction (CustomListMixin_get_queryset db) as [|x xs IH]; simpl;
        [reflexivity|].
      destruct (Post.author x =? User.pk a); simpl; [|exact IH].
      destruct ((Post.pub_date x <=? now) && Post.is_published x
                && Category.is_published (Post.category x));
        simpl; now rewrite IH.
Qed.

(** C7: every sequence [listVisiblePosts] returns is ordered by
    [pub_date], newest first, with posts of equal date in ascending key
    order; and the sequence is determined by the rows alone: two stores
    whose post tables hold the same rows (keys being unique) return the
    same sequence, in whatever order the tables keep them. *)
Theorem C7_listing_order
  (db : DB) (now : Z) (viewer : RequestUser) (filters : Filters) :
  (forall l, listVisiblePosts db now viewer filters = Ok l ->
             StronglySorted listed_before l)
  /\ (forall db',
         NoDup (map Post.pk (posts db)) ->
         Permutation (posts db) (posts db') ->
         users db' = users db ->
         categories db' = categories db ->
         listVisiblePosts db' now viewer filters
         = listVisiblePosts db now viewer filters).
Proof.
  split.
  - intros l Hrun.
    destruct (listing_is_filtered_base _ _ _ _ _ Hrun) as [f ->].
    apply StronglySorted_filter. apply sort_sorted.
  - intros db' Hnd HP Hu Hc.
    assert (Hbase : CustomListMixin_get_queryset db'
                    = CustomListMixin_get_queryset db).
    { unfold CustomListMixin_get_queryset. symmetry.
      now apply sort_of_permutation. }
    destruct filters as [|s|n]; simpl.
    + unfold IndexHome_get_queryset. now rewrite Hbase.
    + unfold CategoryListView_get_queryset. now rewrite Hbase, Hc.
    + unfold ProfileView_get_queryset. now rewrite Hbase, Hu.
Qed.

Lemma C7_witness :
  StronglySorted listed_before
    [Sample.future; Sample.live_post; Sample.draft; Sample.in_hidden]
  /\ listVisiblePosts
       (with_posts
          [Sample.bobs; Sample.in_hidden; Sample.future; Sample.draft;
           Sample.live_post] Sample.db)
       Sample.now (Authenticated Sample.alice) (by_profile "alice")
     = Ok [Sample.future; Sample.live_post; Sample.draft; Sample.in_hidden].
Proof.
  destruct (C7_listing_order Sample.db Sample.now
              (Authenticated Sample.alice) (by_profile "alice"))
    as [Hsorted Hdet].
  split.
  - apply Hsorted. reflexivity.
  - rewrite (Hdet (with_posts
                     [Sample.bobs; Sample.in_hidden; Sample.future;
                      Sample.draft; Sample.live_post] Sample.db)
               Sample_posts_keys);
      [reflexivity | | reflexivity | reflexivity].
    simpl.
    apply (Permutation_rev
             [Sample.live_post; Sample.draft; Sample.future;
              Sample.in_hidden; Sample.bobs]).
Defined.

(** ** Edit and delete *)

Lemma canMutate_iff (a : Z) (viewer : RequestUser) :
  canMutate a viewer = true <->
  exists u, viewer = Authenticated u /\ User.pk u = a.
Proof.
  unfold canMutate, is_user. destruct viewer as [|u].
  - split; [discriminate|]. intros (u & Hu & _). discriminate.
  - rewrite Z.eqb_eq. split.
    + intros ->. now exists u.
    + intros (u' & [= <-] & ->). reflexivity.
Qed.

Lemma post_guard_rejects
  (db : DB) (viewer : RequestUser) (P : Post.t) (k : Post.t -> Handled) :
  NoDup (map Post.pk (posts db)) -> In P (posts db) ->
  is_user (Post.author P) viewer = false ->
  LoginRequiredMixin_dispatch db viewer (fun _ =>
    PostChangeMixin_dispatch db viewer (Post.pk P) k)
  = (db, HttpResponseRedirect (rejection_target viewer (Post.pk P))).
Proof.
  intros Hnd Hin Hother. destruct viewer as [|u]; [reflexivity|].
  unfold LoginRequiredMixin_dispatch, PostChangeMixin_dispatch.
  rewrite (get_object_or_404_by_key Post.pk _ _ Hnd Hin).
  unfold or_respond, canMutate. now rewrite Hother.
Qed.

Lemma comment_guard_rejects
  (db : DB) (viewer : RequestUser) (C : Comment.t) (post_id : Z)
  (k : Comment.t -> Handled) :
  NoDup (map Comment.pk (comments db)) -> In C (comments db) ->
  is_user (Comment.author C) viewer = false ->
  LoginRequiredMixin_dispatch db viewer (fun _ =>
    CommentChangeMixin_dispatch db viewer post_id (Comment.pk C) k)
  = (db, HttpResponseRedirect (rejection_target viewer post_id)).
Proof.
  intros Hnd Hin Hother. destruct viewer as [|u]; [reflexivity|].
  unfold LoginRequiredMixin_dispatch, CommentChangeMixin_dispatch.
  rewrite (get_object_or_404_by_key Comment.pk _ _ Hnd Hin).
  unfold or_respond, canMutate. now rewrite Hother.
Qed.

(** C3: for a post or comment E of the store and a viewer who is not its
    author, [canMutate] is false (it is true for the author and for nobody
    else, whatever else the viewer is), and an edit or a delete attempt is
    answered with a redirect (to the login page for an anonymous viewer,
    to the post's page otherwise) and leaves the whole store, E included,
    as it was. *)
Theorem C3_non_author_cannot_mutate (db : DB) (viewer : RequestUser) :
  (forall a v, canMutate a v = true <->
               exists u, v = Authenticated u /\ User.pk u = a)
  /\ (forall P form,
         NoDup (map Post.pk (posts db)) -> In P (posts db) ->
         is_user (Post.author P) viewer = false ->
         canMutate (Post.author P) viewer = false
         /\ PostUpdateView_post db viewer (Post.pk P) form
            = (db, HttpResponseRedirect (rejection_target viewer (Post.pk P)))
         /\ PostDeleteView_post db viewer (Post.pk P)
            = (db, HttpResponseRedirect (rejection_target viewer (Post.pk P))))
  /\ (forall C post_id form,
         NoDup (map Comment.pk (comments db)) -> In C (comments db) ->
         is_user (Comment.author C) viewer = false ->
         canMutate (Comment.author C) viewer = false
         /\ CommentUpdateView_post db viewer post_id (Comment.pk C) form
            = (db, HttpResponseRedirect (rejection_target viewer post_id))
         /\ CommentDeleteView_post db viewer post_id (Comment.pk C)
            = (db, HttpResponseRedirect (rejection_target viewer post_id))).
Proof.
  split; [exact canMutate_iff|]. split.
  - intros P form Hnd Hin Hother. split; [exact Hother|]. split.
    + unfold PostUpdateView_post. now apply post_guard_rejects.
    + unfold PostDeleteView_post.
      destruct viewer as [|u]; [reflexivity|].
      apply (post_guard_rejects db (Authenticated u) P); trivial.
  - intros C post_id form Hnd Hin Hother. split; [exact Hother|]. split.
    + unfold CommentUpdateView_post. now apply comment_guard_rejects.
    + unfold CommentDeleteView_post. now apply comment_guard_rejects.
Qed.

Lemma C3_witness :
  CommentDeleteView_post Sample.db (Authenticated Sample.bob) 1 1
  = (Sample.db, HttpResponseRedirect (url_post_detail 1))
  /\ PostUpdateView_post Sample.db AnonymousUser 2 Sample.post_form
     = (Sample.db, HttpResponseRedirect url_login).
Proof.
  destruct (C3_non_author_cannot_mutate Sample.db (Authenticated Sample.bob))
    as (_ & _ & Hcomment).
  destruct (C3_non_author_cannot_mutate Sample.db AnonymousUser)
    as (_ & Hpost & _).
  split.
  - apply (Hcomment Sample.remark 1 Sample.comment_form
             Sample_comments_keys (or_introl eq_refl) eq_refl).
  - apply (Hpost Sample.draft Sample.post_form
             Sample_posts_keys (or_intror (or_introl eq_refl)) eq_refl).
Defined.

(** The guard is a guard, not a wall: the author's own delete goes
    through and takes the post's comments along. *)
Example author_delete_goes_through :
  PostDeleteView_post Sample.db (Authenticated Sample.alice) 1
  = (mkDB [Sample.alice; Sample.bob] [Sample.travel; Sample.hidden]
          [Sample.draft; Sample.future; Sample.in_hidden; Sample.bobs] [],
     HttpResponseRedirect (url_profile "alice")).
Proof. reflexivity. Qed.

(** ** Create *)

Lemma insert_In {A : Type} (pk : A -> Z) (set_pk : Z -> A -> A)
  (row : A) (rows : list A) (x : A) :
  In x (Orm.insert pk set_pk row rows) <->
  In x rows \/ x = set_pk (Orm.next_pk pk rows) row.
Proof.
  unfold Orm.insert. rewrite in_app_iff. simpl.
  split; intros [H|H]; auto.
  - destruct H as [H|[]]; auto.
Qed.

(** What the post-create view does with the store. *)
Lemma PostCreateView_post_run
  (db : DB) (request_user : RequestUser) (form : ModelForm Post.t) :
  PostCreateView_post db request_user form
  = match request_user with
    | AnonymousUser => (db, HttpResponseRedirect url_login)
    | Authenticated u =>
        if is_valid form then
          (with_posts
             (posts db ++
                [Post.set_pk (Orm.next_pk Post.pk (posts db))
                   (Post.set_author (User.pk u) (cleaned form Post.blank))])
             db,
           HttpResponseRedirect (url_profile (User.username u)))
        else (db, TemplateResponse)
    end.
Proof. destruct request_user; reflexivity. Qed.

(** What the comment-create view does once the post is found. *)
Lemma CommentCreateView_dispatch_run
  (db : DB) (request_user : RequestUser) (post_id : Z)
  (form : ModelForm Comment.t) (post_instance : Post.t) :
  Orm.get_object_or_404 (fun p => Post.pk p =? post_id) (posts db)
  = Ok post_instance ->
  CommentCreateView_dispatch db request_user post_id form
  = match request_user with
    | AnonymousUser => (db, HttpResponseRedirect url_login)
    | Authenticated u =>
        if is_valid form then
          (with_comments
             (comments db ++
                [Comment.set_pk (Orm.next_pk Comment.pk (comments db))
                   (Comment.set_post (Post.pk post_instance)
                      (Comment.set_author (User.pk u)
                         (cleaned form Comment.blank)))])
             db,
           HttpResponseRedirect (url_post_detail post_id))
        else (db, TemplateResponse)
    end.
Proof.
  intros Hget. unfold CommentCreateView_dispatch. rewrite Hget.
  destruct request_user; reflexivity.
Qed.

(** C8: a post that the post-create view adds to the store has the
    requesting, logged-in viewer as its author; a comment that the
    comment-create view adds has that viewer as its author and, as its
    post, the post of the store whose key is the [post_id] of the URL; and
    an author named by the submitted form data changes nothing. *)
Theorem C8_created_rows_carry_the_requester
  (db : DB) (request_user : RequestUser) :
  (forall form p,
      In p (posts (fst (PostCreateView_post db request_user form))) ->
      ~ In p (posts db) ->
      exists u, request_user = Authenticated u /\ Post.author p = User.pk u)
  /\ (forall post_id form c,
         In c (comments
                 (fst (CommentCreateView_dispatch db request_user post_id form))) ->
         ~ In c (comments db) ->
         exists u P,
           request_user = Authenticated u
           /\ Comment.author c = User.pk u
           /\ In P (posts db) /\ Post.pk P = post_id
           /\ Comment.post c = Post.pk P)
  /\ (forall form a,
         PostCreateView_post db request_user (post_form_naming_author a form)
         = PostCreateView_post db request_user form)
  /\ (forall post_id form a,
         CommentCreateView_dispatch db request_user post_id
           (comment_form_naming_author a form)
         = CommentCreateView_dispatch db request_user post_id form).
Proof.
  split; [|split; [|split]].
  - intros form p. rewrite PostCreateView_post_run.
    destruct request_user as [|u]; [simpl; tauto|].
    destruct (is_valid form); [|simpl; tauto].
    simpl. rewrite in_app_iff. simpl. intros [H|[<-|[]]] Hnew; [tauto|].
    exists u. split; reflexivity.
  - intros post_id form c.
    destruct (Orm.get_object_or_404 (fun p => Post.pk p =? post_id) (posts db))
      as [P|r] eqn:Hget.
    + rewrite (CommentCreateView_dispatch_run _ _ _ _ _ Hget).
      apply get_object_or_404_found in Hget. destruct Hget as [HP Hkey].
      apply Z.eqb_eq in Hkey.
      destruct request_user as [|u]; [simpl; tauto|].
      destruct (is_valid form); [|simpl; tauto].
      simpl. rewrite in_app_iff. simpl. intros [H|[<-|[]]] Hnew; [tauto|].
      exists u, P. repeat split; trivial.
    + unfold CommentCreateView_dispatch. rewrite Hget. simpl. tauto.
  - intros form a. rewrite !PostCreateView_post_run.
    destruct request_user; reflexivity.
  - intros post_id form a. unfold CommentCreateView_dispatch.
    destruct (Orm.get_object_or_404 _ (posts db)); [|reflexivity].
    destruct request_user; reflexivity.
Qed.

Lemma C8_witness :
  (exists u, Authenticated Sample.bob = Authenticated u
             /\ Post.author (Post.mk 6 "New" "text" 90 true 2 Sample.travel)
                = User.pk u)
  /\ (exists u P,
         Authenticated Sample.bob = Authenticated u
         /\ Comment.author (Comment.mk 2 "Hi" 100 2 1) = User.pk u
         /\ In P (posts Sample.db) /\ Post.pk P = 1
         /\ Comment.post (Comment.mk 2 "Hi" 100 2 1) = Post.pk P).
Proof.
  destruct (C8_created_rows_carry_the_requester
              Sample.db (Authenticated Sample.bob)) as (Hpost & Hcomment & _).
  split.
  - apply (Hpost Sample.post_form).
    + simpl. do 5 right. left. reflexivity.
    + simpl. intros H. repeat (destruct H as [H|H]; [discriminate H|]).
      exact H.
  - apply (Hcomment 1 Sample.comment_form).
    + simpl. right. left. reflexivity.
    + simpl. intros [H|[]]. discriminate H.
Defined.

(** C9: comment creation asks only that the post exist.  For a post P of
    the store, a logged-in viewer and a valid form, the comment-create
    view adds one comment, attached to P and authored by the viewer, and
    redirects to P's page; neither P's author nor whether P is live plays
    a part, so this holds as well when the viewer could not read P. *)
Theorem C9_comment_create_ignores_visibility
  (db : DB) (now : Z) (u : User.t) (P : Post.t) (form : ModelForm Comment.t) :
  NoDup (map Post.pk (posts db)) ->
  In P (posts db) ->
  is_valid form = true ->
  exists c,
    CommentCreateView_dispatch db (Authenticated u) (Post.pk P) form
    = (with_comments (comments db ++ [c]) db,
       HttpResponseRedirect (url_post_detail (Post.pk P)))
    /\ Comment.post c = Post.pk P
    /\ Comment.author c = User.pk u
    /\ (is_user (Post.author P) (Authenticated u) = false ->
        live now P = false ->
        PostDetailView_get_object db now (Authenticated u) (Post.pk P)
        = Raise Http404).
Proof.
  intros Hnd Hin Hvalid.
  rewrite (CommentCreateView_dispatch_run db (Authenticated u) (Post.pk P)
             form P (get_object_or_404_by_key Post.pk _ _ Hnd Hin)).
  rewrite Hvalid. eexists. split; [reflexivity|].
  split; [reflexivity|]. split; [reflexivity|].
  intros Hother Hhidden. unfold PostDetailView_get_object.
  rewrite (get_object_or_404_by_key Post.pk _ _ Hnd Hin). unfold bind.
  rewrite Hother. fold (live now P). now rewrite Hhidden.
Qed.

Lemma C9_witness :
  exists c,
    CommentCreateView_dispatch Sample.db (Authenticated Sample.bob) 2
      Sample.comment_form
    = (with_comments (comments Sample.db ++ [c]) Sample.db,
       HttpResponseRedirect (url_post_detail 2))
    /\ Comment.post c = 2
    /\ Comment.author c = 2
    /\ PostDetailView_get_object Sample.db Sample.now
         (Authenticated Sample.bob) 2 = Raise Http404.
Proof.
  destruct (C9_comment_create_ignores_visibility
              Sample.db Sample.now Sample.bob Sample.draft Sample.comment_form
              Sample_posts_keys (or_intror (or_introl eq_refl)) eq_refl)
    as (c & Hrun & Hpost & Hauthor & Hhidden).
  exists c. split; [exact Hrun|]. split; [exact Hpost|].
  split; [exact Hauthor|]. apply Hhidden; reflexivity.
Defined.

(** ** Profile update *)

(** Saving a row leaves every row under another key as it was, and adds
    no row under another key. *)
Lemma update_frame {A : Type} (pk : A -> Z) (row : A) (rows : list A) :
  filter (fun r => negb (pk r =? pk row)) (Orm.update pk row rows)
  = filter (fun r => negb (pk r =? pk row)) rows.
Proof.
  unfold Orm.update. destruct (existsb _ rows).
  - induction rows as [|x xs IH]; simpl; [reflexivity|].
    destruct (Z.eqb_spec (pk x) (pk row)) as [E|N]; simpl.
    + rewrite Z.eqb_refl. simpl. exact IH.
    + destruct (Z.eqb_spec (pk x) (pk row)); [contradiction|].
      simpl. now rewrite IH.
  - rewrite filter_app. simpl. rewrite Z.eqb_refl. simpl.
    apply app_nil_r.
Qed.

Lemma update_keeps_others {A : Type} (pk : A -> Z) (row : A) (rows : list A)
  (x : A) :
  pk x <> pk row -> (In x (Orm.update pk row rows) <-> In x rows).
Proof.
  intros N.
  assert (Hx : negb (pk x =? pk row) = true).
  { apply negb_true_iff. now apply Z.eqb_neq. }
  split; intros H.
  - assert (H' : In x (filter (fun r => negb (pk r =? pk row))
                              (Orm.update pk row rows))).
    { apply filter_In. now split. }
    rewrite update_frame in H'. now apply filter_In in H'.
  - assert (H' : In x (filter (fun r => negb (pk r =? pk row)) rows)).
    { apply filter_In. now split. }
    rewrite <- update_frame in H'. now apply filter_In in H'.
Qed.


(** C10: the profile update edits [request.user] and nothing else: the
    URL's keyword arguments have no influence on what it does, the rows
    of all other users are the same before and after (none changed, added
    or removed), and the other tables are untouched. *)
Theorem C10_profile_update_touches_own_row_only
  (db : DB) (request_user : RequestUser) (form : ModelForm User.t) :
  (forall u kwargs, ProfileUpdateView_get_object u kwargs = u)
  /\ (forall kwargs kwargs',
         ProfileUpdateView_post db request_user kwargs form
         = ProfileUpdateView_post db request_user kwargs' form)
  /\ (forall kwargs,
         let db' := fst (ProfileUpdateView_post db request_user kwargs form) in
         other_users request_user (users db')
         = other_users request_user (users db)
         /\ (forall x, is_user (User.pk x) request_user = false ->
                       (In x (users db') <-> In x (users db)))
         /\ categories db' = categories db
         /\ posts db' = posts db
         /\ comments db' = comments db).
Proof.
  split; [reflexivity|]. split; [reflexivity|].
  intros kwargs. unfold ProfileUpdateView_post, ProfileUpdateView_get_object.
  destruct request_user as [|u]; simpl.
  { repeat split; tauto. }
  destruct (is_valid form); simpl.
  2: { repeat split; tauto. }
  split; [|split; [|repeat split]].
  - unfold other_users. simpl. apply (update_frame User.pk
      (User.set_pk (User.pk u) (cleaned form u)) (users db)).
  - intros x Hx. apply Z.eqb_neq in Hx.
    apply (update_keeps_others User.pk
             (User.set_pk (User.pk u) (cleaned form u)) (users db) x).
    exact Hx.
Qed.

(** Bob renames himself: his row changes, Alice's does not, and the
    redirect already carries the new handle. *)
Example profile_update_run :
  ProfileUpdateView_post Sample.db (Authenticated Sample.bob)
    [("username", "alice")] Sample.user_form
  = (with_users
       [Sample.alice; User.mk 2 "bobby" "Bob" "B" "bob@example.org"]
       Sample.db,
     HttpResponseRedirect (url_profile "bobby")).
Proof. reflexivity. Qed.

(** * Further properties of the views *)

(** ** More on lookups *)

(** With unique keys a lookup by key finds the row or nothing. *)
Lemma get_object_or_404_key_cases {A : Type} (pk : A -> Z) (rows : list A)
  (k : Z) :
  NoDup (map pk rows) ->
  Orm.get_object_or_404 (fun x => pk x =? k) rows = Raise Http404
  \/ exists r, In r rows /\ pk r = k
               /\ Orm.get_object_or_404 (fun x => pk x =? k) rows = Ok r.
Proof.
  intros Hnd.
  destruct (filter (fun x => pk x =? k) rows) as [|r rest] eqn:Hf.
  - left. unfold Orm.get_object_or_404, Orm.get. now rewrite Hf.
  - right. exists r.
    assert (Hr : In r (filter (fun x => pk x =? k) rows))
      by (rewrite Hf; now left).
    apply filter_In in Hr. destruct Hr as [Hin Hk].
    apply Z.eqb_eq in Hk. subst k.
    split; [exact Hin|]. split; [reflexivity|].
    now apply get_object_or_404_by_key.
Qed.

Lemma filter_filter_andb {A : Type} (f g : A -> bool) (l : list A) :
  filter g (filter f l) = filter (fun x => f x && g x) l.
Proof.
  induction l as [|x l IH]; simpl; [reflexivity|].
  destruct (f x); simpl; [|exact IH].
  destruct (g x); now rewrite IH.
Qed.

(** ** What a viewer is shown *)

(** A post that comes up in a listing is a row of the store that is live
    or the viewer's own. *)
Lemma listing_member_visible
  (db : DB) (now : Z) (viewer : RequestUser) (filters : Filters)
  (l : list Post.t) (p : Post.t) :
  listVisiblePosts db now viewer filters = Ok l -> In p l ->
  In p (posts db)
  /\ (live now p = true \/ is_user (Post.author p) viewer = true).
Proof.
  destruct filters as [|s|n]; simpl.
  - intros [= <-] Hin. apply IndexHome_In in Hin. tauto.
  - unfold CategoryListView_get_queryset.
    destruct (Orm.get_object_or_404 _ (categories db)); simpl;
      [|discriminate].
    intros [= <-] Hin. apply filter_In in Hin. destruct Hin as [Hin Hc].
    apply base_queryset_In in Hin. apply andb_true_iff in Hc.
    split; [exact Hin|]. left. apply Hc.
  - unfold ProfileView_get_queryset.
    destruct (Orm.get_object_or_404 _ (users db)) as [a|]; simpl;
      [|discriminate].
    destruct (is_user (User.pk a) viewer) eqn:Hown; simpl; intros [= <-] Hin.
    + apply filter_In in Hin. destruct Hin as [Hin Ha].
      apply base_queryset_In in Hin. apply Z.eqb_eq in Ha.
      split; [exact Hin|]. right. now rewrite Ha.
    + apply filter_In in Hin. destruct Hin as [Hin Hc].
      apply filter_In in Hin. destruct Hin as [Hin _].
      apply base_queryset_In in Hin.
      split; [exact Hin|]. left.
      unfold live. rewrite !andb_true_iff in *. tauto.
Qed.

(** X1: whatever the detail read returns is a row of the store under the
    requested key, and it is live or the viewer's own post; no uniqueness
    of keys is needed for that. *)
Theorem X1_detail_read_returns_visible_row
  (db : DB) (now : Z) (viewer : RequestUser) (k : Z) (p : Post.t) :
  PostDetailView_get_object db now viewer k = Ok p ->
  In p (posts db) /\ Post.pk p = k
  /\ (is_user (Post.author p) viewer = true \/ live now p = true).
Proof.
  unfold PostDetailView_get_object.
  destruct (Orm.get_object_or_404 _ (posts db)) as [q|r] eqn:Hget;
    [|discriminate].
  apply get_object_or_404_found in Hget. destruct Hget as [Hin Hk].
  apply Z.eqb_eq in Hk. unfold bind. fold (live now q).
  destruct (is_user (Post.author q) viewer) eqn:Hown; simpl.
  - intros [= <-]. auto.
  - destruct (live now q) eqn:Hlive; simpl; [|discriminate].
    intros [= <-]. auto.
Qed.

Lemma X1_witness :
  In Sample.draft (posts Sample.db) /\ Post.pk Sample.draft = 2
  /\ (is_user (Post.author Sample.draft) (Authenticated Sample.alice) = true
      \/ live Sample.now Sample.draft = true).
Proof.
  apply (X1_detail_read_returns_visible_row
           Sample.db Sample.now (Authenticated Sample.alice) 2 Sample.draft).
  reflexivity.
Defined.

(** X2: with unique keys the detail read has two outcomes only, the post
    or the 404; and a key that names no post gives the 404 to every
    viewer. *)
Theorem X2_detail_read_fails_only_with_404
  (db : DB) (now : Z) (viewer : RequestUser) (k : Z) :
  NoDup (map Post.pk (posts db)) ->
  ((exists p, PostDetailView_get_object db now viewer k = Ok p)
   \/ PostDetailView_get_object db now viewer k = Raise Http404)
  /\ ((forall q, In q (posts db) -> Post.pk q <> k) ->
      PostDetailView_get_object db now viewer k = Raise Http404).
Proof.
  intros Hnd. unfold PostDetailView_get_object. split.
  - destruct (get_object_or_404_key_cases Post.pk (posts db) k Hnd)
      as [-> | (r & _ & _ & ->)]; [now right|].
    unfold bind.
    destruct (negb (is_user (Post.author r) viewer)); [|left; now exists r].
    destruct (negb _); [now right | left; now exists r].
  - intros Habs. rewrite get_object_or_404_none; [reflexivity|].
    intros q Hq. apply Z.eqb_neq. now apply Habs.
Qed.

Lemma X2_witness :
  PostDetailView_get_object Sample.db Sample.now (Authenticated Sample.alice) 9
  = Raise Http404.
Proof.
  apply (X2_detail_read_fails_only_with_404
           Sample.db Sample.now (Authenticated Sample.alice) 9
           Sample_posts_keys).
  simpl. intros q H.
  repeat (destruct H as [<-|H]; [discriminate|]). destruct H.
Defined.

(** X3: every post of every listing is a row of the store that is live
    or the viewer's own; hence an anonymous viewer is shown live posts
    only, on the home page, on a category page and on any profile. *)
Theorem X3_listings_show_live_or_own
  (db : DB) (now : Z) (viewer : RequestUser) (filters : Filters)
  (l : list Post.t) (p : Post.t) :
  listVisiblePosts db now viewer filters = Ok l -> In p l ->
  In p (posts db)
  /\ (live now p = true \/ is_user (Post.author p) viewer = true)
  /\ (viewer = AnonymousUser -> live now p = true).
Proof.
  intros Hrun Hin.
  destruct (listing_member_visible _ _ _ _ _ _ Hrun Hin) as [Hp Hv].
  split; [exact Hp|]. split; [exact Hv|].
  intros ->. destruct Hv as [Hv|Hv]; [exact Hv|discriminate].
Qed.

Lemma X3_witness :
  In Sample.live_post (posts Sample.db)
  /\ (live Sample.now Sample.live_post = true
      \/ is_user (Post.author Sample.live_post) AnonymousUser = true)
  /\ (AnonymousUser = AnonymousUser -> live Sample.now Sample.live_post = true).
Proof.
  apply (X3_listings_show_live_or_own
           Sample.db Sample.now AnonymousUser (by_profile "alice")
           [Sample.live_post] Sample.live_post eq_refl).
  now left.
Defined.

(** X4: listing and detail agree: with unique keys, a post a viewer finds
    in any listing opens for that viewer on the detail page. *)
Theorem X4_listed_posts_open
  (db : DB) (now : Z) (viewer : RequestUser) (filters : Filters)
  (l : list Post.t) (p : Post.t) :
  NoDup (map Post.pk (posts db)) ->
  listVisiblePosts db now viewer filters = Ok l -> In p l ->
  PostDetailView_get_object db now viewer (Post.pk p) = Ok p.
Proof.
  intros Hnd Hrun Hin.
  destruct (listing_member_visible _ _ _ _ _ _ Hrun Hin) as [Hp Hv].
  unfold PostDetailView_get_object.
  rewrite (get_object_or_404_by_key Post.pk _ _ Hnd Hp). unfold bind.
  fold (live now p).
  destruct (is_user (Post.author p) viewer); simpl; [reflexivity|].
  destruct Hv as [->|Hv]; [reflexivity|discriminate].
Qed.

Lemma X4_witness :
  PostDetailView_get_object Sample.db Sample.now (Authenticated Sample.alice) 3
  = Ok Sample.future.
Proof.
  apply (X4_listed_posts_open
           Sample.db Sample.now (Authenticated Sample.alice)
           (by_profile "alice")
           [Sample.future; Sample.live_post; Sample.draft; Sample.in_hidden]
           Sample.future Sample_posts_keys eq_refl).
  now left.
Defined.

(** ** How the listings relate *)

(** X5: a category page is the home page narrowed to the category: the
    same posts in the same order, those of other categories dropped.  So
    nothing is on a category page that is not on the home page. *)
Theorem X5_category_page_is_narrowed_home
  (db : DB) (now : Z) (category_slug : string) (c : Category.t)
  (l : list Post.t) :
  CategoryListView_get_queryset db now category_slug = Ok (c, l) ->
  l = filter
        (fun p => String.eqb (Category.slug (Post.category p)) category_slug)
        (IndexHome_get_queryset db now)
  /\ incl l (IndexHome_get_queryset db now).
Proof.
  unfold CategoryListView_get_queryset.
  destruct (Orm.get_object_or_404 _ (categories db)); simpl; [|discriminate].
  intros [= _ <-].
  assert (E : filter
                (fun p =>
                   Post.is_published p
                   && Category.is_published (Post.category p)
                   && (Post.pub_date p <=? now)
                   && String.eqb (Category.slug (Post.category p))
                        category_slug)
                (CustomListMixin_get_queryset db)
              = filter
                  (fun p =>
                     String.eqb (Category.slug (Post.category p))
                       category_slug)
                  (IndexHome_get_queryset db now)).
  { unfold IndexHome_get_queryset. now rewrite filter_filter_andb. }
  rewrite E. split; [reflexivity|]. apply incl_filter.
Qed.

Lemma X5_witness :
  [Sample.live_post; Sample.bobs]
  = filter (fun p => String.eqb (Category.slug (Post.category p)) "travel")
           (IndexHome_get_queryset Sample.db Sample.now)
  /\ incl [Sample.live_post; Sample.bobs]
          (IndexHome_get_queryset Sample.db Sample.now).
Proof.
  apply (X5_category_page_is_narrowed_home
           Sample.db Sample.now "travel" Sample.travel
           [Sample.live_post; Sample.bobs]).
  reflexivity.
Defined.

(** X6: the profile page of a handle no user has is a 404 for every
    viewer; otherwise it is the page of a user of the store with that
    handle and lists posts of the store by that user only. *)
Theorem X6_profile_page_of_one_author
  (db : DB) (now : Z) (viewer : RequestUser) (username : string) :
  ((forall u, In u (users db) -> User.username u <> username) ->
   ProfileView_get_queryset db now viewer username = Raise Http404)
  /\ (forall a l,
         ProfileView_get_queryset db now viewer username = Ok (a, l) ->
         In a (users db) /\ User.username a = username
         /\ forall p, In p l -> In p (posts db) /\ Post.author p = User.pk a).
Proof.
  unfold ProfileView_get_queryset. split.
  - intros Hnone. rewrite get_object_or_404_none; [reflexivity|].
    intros u Hu. apply String.eqb_neq. now apply Hnone.
  - intros a l.
    destruct (Orm.get_object_or_404 _ (users db)) as [a'|] eqn:Hget;
      simpl; [|discriminate].
    apply get_object_or_404_found in Hget. destruct Hget as [Ha Hname].
    apply String.eqb_eq in Hname.
    destruct (is_user (User.pk a') viewer); intros [= <- <-];
      (split; [exact Ha|]); (split; [exact Hname|]); intros p Hp.
    + apply filter_In in Hp. rewrite base_queryset_In, Z.eqb_eq in Hp.
      exact Hp.
    + apply filter_In in Hp. destruct Hp as [Hp _].
      apply filter_In in Hp. rewrite base_queryset_In, Z.eqb_eq in Hp.
      exact Hp.
Qed.

Lemma X6_witness :
  ProfileView_get_queryset Sample.db Sample.now (Authenticated Sample.alice)
    "carol" = Raise Http404.
Proof.
  apply (X6_profile_page_of_one_author
           Sample.db Sample.now (Authenticated Sample.alice) "carol").
  simpl. intros u [<-|[<-|[]]]; discriminate.
Defined.

(** X7: on one profile, what another viewer gets is what the owner gets
    with the posts that are not live taken out, in the same order; and
    for a viewer who is not the owner the profile page is the home page
    narrowed to the author. *)
Theorem X7_profile_owner_and_others
  (db : DB) (now : Z) (owner other : RequestUser) (username : string)
  (a : User.t) (l : list Post.t) :
  ProfileView_get_queryset db now owner username = Ok (a, l) ->
  is_user (User.pk a) owner = true ->
  is_user (User.pk a) other = false ->
  ProfileView_get_queryset db now other username
  = Ok (a, filter (live now) l)
  /\ filter (live now) l
     = filter (fun p => Post.author p =? User.pk a)
              (IndexHome_get_queryset db now).
Proof.
  unfold ProfileView_get_queryset.
  destruct (Orm.get_object_or_404 _ (users db)) as [a'|]; simpl;
    [|discriminate].
  destruct (is_user (User.pk a') owner) eqn:Hown; intros [= <- <-] Ho Hother.
  2: { rewrite Hown in Ho. discriminate. }
  rewrite Hother.
  assert (Hext : forall xs,
             filter (fun p => (Post.pub_date p <=? now)
                              && Post.is_published p
                              && Category.is_published (Post.category p)) xs
             = filter (live now) xs).
  { intros xs. apply filter_ext. intros p. unfold live.
    destruct (Post.pub_date p <=? now), (Post.is_published p),
      (Category.is_published (Post.category p)); reflexivity. }
  rewrite Hext. split; [reflexivity|].
  unfold IndexHome_get_queryset. fold (live now).
  rewrite !filter_filter_andb. apply filter_ext.
  intros p. apply andb_comm.
Qed.

Lemma X7_witness :
  ProfileView_get_queryset Sample.db Sample.now (Authenticated Sample.bob)
    "alice"
  = Ok (Sample.alice,
        filter (live Sample.now)
          [Sample.future; Sample.live_post; Sample.draft; Sample.in_hidden]).
Proof.
  apply (X7_profile_owner_and_others
           Sample.db Sample.now (Authenticated Sample.alice)
           (Authenticated Sample.bob) "alice" Sample.alice
           [Sample.future; Sample.live_post; Sample.draft; Sample.in_hidden]
           eq_refl eq_refl eq_refl).
Defined.

(** ** Who writes, and what *)

Lemma next_pk_above {A : Type} (pk : A -> Z) (rows : list A) (r : A) :
  In r rows -> pk r < Orm.next_pk pk rows.
Proof.
  unfold Orm.next_pk. induction rows as [|x xs IH]; [contradiction|].
  cbn [fold_right]. intros [->|Hin]; [lia|]. specialize (IH Hin). lia.
Qed.

Lemma insert_keeps_keys_unique {A : Type} (pk : A -> Z)
  (set_pk : Z -> A -> A) (row : A) (rows : list A) :
  (forall k r, pk (set_pk k r) = k) ->
  NoDup (map pk rows) -> NoDup (map pk (Orm.insert pk set_pk row rows)).
Proof.
  intros Hset Hnd. unfold Orm.insert. rewrite map_app. simpl. rewrite Hset.
  apply NoDup_app; [exact Hnd | repeat constructor; intros [] |].
  intros k Hk [<-|[]]. apply in_map_iff in Hk. destruct Hk as (r & E & Hr).
  apply (next_pk_above pk) in Hr. lia.
Qed.

(** X8: a request of an anonymous viewer changes nothing in the store,
    whichever of the seven write views it is sent to; all but the comment
    form answer with the redirect to the login page. *)
Theorem X8_anonymous_requests_never_write (db : DB) :
  (forall form,
      PostCreateView_post db AnonymousUser form
      = (db, HttpResponseRedirect url_login))
  /\ (forall kwargs form,
         ProfileUpdateView_post db AnonymousUser kwargs form
         = (db, HttpResponseRedirect url_login))
  /\ (forall post_id form,
         PostUpdateView_post db AnonymousUser post_id form
         = (db, HttpResponseRedirect url_login))
  /\ (forall post_id,
         PostDeleteView_post db AnonymousUser post_id
         = (db, HttpResponseRedirect url_login))
  /\ (forall post_id comment_id form,
         CommentUpdateView_post db AnonymousUser post_id comment_id form
         = (db, HttpResponseRedirect url_login))
  /\ (forall post_id comment_id,
         CommentDeleteView_post db AnonymousUser post_id comment_id
         = (db, HttpResponseRedirect url_login))
  /\ (forall post_id form,
         fst (CommentCreateView_dispatch db AnonymousUser post_id form) = db).
Proof.
  repeat (split; [reflexivity|]).
  intros post_id form. unfold CommentCreateView_dispatch.
  destruct (Orm.get_object_or_404 _ (posts db)); reflexivity.
Qed.

(** X9: the comment form looks the post up before it asks who is
    asking: under a key that names no post every viewer, logged in or
    not, with a valid form or not, gets the 404 and the store stays as it
    is; under the key of a post an anonymous viewer is sent to the login
    page. *)
Theorem X9_comment_create_missing_post
  (db : DB) (post_id : Z) (form : ModelForm Comment.t) :
  ((forall q, In q (posts db) -> Post.pk q <> post_id) ->
   forall viewer,
     CommentCreateView_dispatch db viewer post_id form = (db, Http404))
  /\ (NoDup (map Post.pk (posts db)) ->
      (exists P, In P (posts db) /\ Post.pk P = post_id) ->
      CommentCreateView_dispatch db AnonymousUser post_id form
      = (db, HttpResponseRedirect url_login)).
Proof.
  unfold CommentCreateView_dispatch. split.
  - intros Habs viewer. rewrite get_object_or_404_none; [reflexivity|].
    intros q Hq. apply Z.eqb_neq. now apply Habs.
  - intros Hnd (P & HP & <-).
    now rewrite (get_object_or_404_by_key Post.pk _ _ Hnd HP).
Qed.

Lemma X9_witness :
  CommentCreateView_dispatch Sample.db AnonymousUser 9 Sample.comment_form
  = (Sample.db, Http404)
  /\ CommentCreateView_dispatch Sample.db AnonymousUser 1 Sample.comment_form
     = (Sample.db, HttpResponseRedirect url_login).
Proof.
  split.
  - apply (X9_comment_create_missing_post Sample.db 9 Sample.comment_form).
    simpl. intros q H.
    repeat (destruct H as [<-|H]; [discriminate|]). destruct H.
  - apply (X9_comment_create_missing_post Sample.db 1 Sample.comment_form
             ).
    + exact Sample_posts_keys.
    + exists Sample.live_post. split; [now left | reflexivity].
Defined.

(** X10: the create views and the profile update write only for a
    logged-in viewer whose form validates (and, for a comment, under the
    key of a post of the store): in every other case the store they
    return is the store they were given. *)
Theorem X10_writes_need_login_and_valid_form
  (db : DB) (viewer : RequestUser) :
  (forall form,
      fst (PostCreateView_post db viewer form) <> db ->
      (exists u, viewer = Authenticated u) /\ is_valid form = true)
  /\ (forall post_id form,
         fst (CommentCreateView_dispatch db viewer post_id form) <> db ->
         (exists u, viewer = Authenticated u) /\ is_valid form = true
         /\ exists P, In P (posts db) /\ Post.pk P = post_id)
  /\ (forall kwargs form,
         fst (ProfileUpdateView_post db viewer kwargs form) <> db ->
         (exists u, viewer = Authenticated u) /\ is_valid form = true).
Proof.
  split; [|split].
  - intros form. rewrite PostCreateView_post_run.
    destruct viewer as [|u]; [intros H; now elim H|].
    destruct (is_valid form); [|intros H; now elim H].
    intros _. split; [now exists u | reflexivity].
  - intros post_id form. unfold CommentCreateView_dispatch.
    destruct (Orm.get_object_or_404 _ (posts db)) as [P|r] eqn:Hget;
      [|intros H; now elim H].
    apply get_object_or_404_found in Hget. destruct Hget as [HP Hk].
    apply Z.eqb_eq in Hk.
    destruct viewer as [|u]; [intros H; now elim H|].
    unfold or_respond, LoginRequiredMixin_dispatch.
    destruct (is_valid form); [|intros H; now elim H].
    intros _. split; [now exists u|]. split; [reflexivity|]. now exists P.
  - intros kwargs form. unfold ProfileUpdateView_post.
    destruct viewer as [|u]; [intros H; now elim H|].
    unfold LoginRequiredMixin_dispatch.
    destruct (is_valid form); [|intros H; now elim H].
    intros _. split; [now exists u | reflexivity].
Qed.

Lemma X10_witness :
  (exists u, Authenticated Sample.bob = Authenticated u)
  /\ is_valid Sample.post_form = true.
Proof.
  apply (X10_writes_need_login_and_valid_form
           Sample.db (Authenticated Sample.bob)).
  simpl. intros H. discriminate H.
Defined.

(** X11: creating a post adds at most one row, at the end of the post
    table: the rows that were there stay as they are and where they are,
    the other tables are not touched, and keys that were unique stay
    unique. *)
Theorem X11_post_create_appends
  (db : DB) (viewer : RequestUser) (form : ModelForm Post.t) :
  let db' := fst (PostCreateView_post db viewer form) in
  users db' = users db
  /\ categories db' = categories db
  /\ comments db' = comments db
  /\ (exists added,
         posts db' = (posts db ++ added)%list /\ (List.length added <= 1)%nat)
  /\ (NoDup (map Post.pk (posts db)) -> NoDup (map Post.pk (posts db'))).
Proof.
  intros db'. subst db'. rewrite PostCreateView_post_run.
  destruct viewer as [|u]; simpl.
  { repeat split; trivial. exists []. rewrite app_nil_r. auto. }
  destruct (is_valid form); simpl.
  2: { repeat split; trivial. exists []. rewrite app_nil_r. auto. }
  repeat split; trivial.
  - eexists. split; [reflexivity|]. simpl. lia.
  - intros Hnd.
    apply (insert_keeps_keys_unique Post.pk Post.set_pk
             (Post.set_author (User.pk u) (cleaned form Post.blank))
             (posts db)); trivial.
Qed.

Lemma X11_witness :
  NoDup (map Post.pk
           (posts (fst (PostCreateView_post Sample.db
                          (Authenticated Sample.bob) Sample.post_form)))).
Proof.
  apply (X11_post_create_appends
           Sample.db (Authenticated Sample.bob) Sample.post_form).
  exact Sample_posts_keys.
Defined.

(** X12: creating a comment adds at most one row, at the end of the
    comment table: the comments that were there stay as they are, users,
    categories and posts are not touched, and keys that were unique stay
    unique. *)
Theorem X12_comment_create_appends
  (db : DB) (viewer : RequestUser) (post_id : Z)
  (form : ModelForm Comment.t) :
  let db' := fst (CommentCreateView_dispatch db viewer post_id form) in
  users db' = users db
  /\ categories db' = categories db
  /\ posts db' = posts db
  /\ (exists added,
         comments db' = (comments db ++ added)%list /\ (List.length added <= 1)%nat)
  /\ (NoDup (map Comment.pk (comments db)) ->
      NoDup (map Comment.pk (comments db'))).
Proof.
  intros db'. subst db'. unfold CommentCreateView_dispatch.
  destruct (Orm.get_object_or_404 _ (posts db)) as [P|r]; simpl.
  2: { repeat split; trivial. exists []. rewrite app_nil_r. auto. }
  destruct viewer as [|u]; simpl.
  { repeat split; trivial. exists []. rewrite app_nil_r. auto. }
  destruct (is_valid form); simpl.
  2: { repeat split; trivial. exists []. rewrite app_nil_r. auto. }
  repeat split; trivial.
  - eexists. split; [reflexivity|]. simpl. lia.
  - intros Hnd.
    apply (insert_keeps_keys_unique Comment.pk Comment.set_pk
             (Comment.set_post (Post.pk P)
                (Comment.set_author (User.pk u)
                   (cleaned form Comment.blank)))
             (comments db)); trivial.
Qed.

Lemma X12_witness :
  NoDup (map Comment.pk
           (comments (fst (CommentCreateView_dispatch Sample.db
                             (Authenticated Sample.bob) 1
                             Sample.comment_form)))).
Proof.
  apply (X12_comment_create_appends
           Sample.db (Authenticated Sample.bob) 1 Sample.comment_form).
  exact Sample_comments_keys.
Defined.

(** ** Create, then read *)








(** ** Template contexts *)

Section DictFacts.
Context {V : Type}.

Lemma Dict_get_set_same (k : string) (v : V) (d : Dict.t V) :
  Dict.get k (Dict.set k v d) = Some v.
Proof.
  induction d as [|[k' v'] d IH]; simpl.
  - now rewrite String.eqb_refl.
  - destruct (String.eqb_spec k' k) as [E|N]; simpl.
    + now rewrite String.eqb_refl.
    + destruct (String.eqb_spec k' k); [contradiction|exact IH].
Qed.

Lemma Dict_get_set_other (k k' : string) (v : V) (d : Dict.t V) :
  k' <> k -> Dict.get k' (Dict.set k v d) = Dict.get k' d.
Proof.
  intros N. induction d as [|[k0 v0] d IH]; simpl.
  - destruct (String.eqb_spec k k'); [congruence|reflexivity].
  - destruct (String.eqb_spec k0 k) as [E|N0]; simpl.
    + subst k0. destruct (String.eqb_spec k k'); [congruence|reflexivity].
    + destruct (String.eqb_spec k0 k'); [reflexivity|exact IH].
Qed.

Lemma Dict_get_del_same (k : string) (d : Dict.t V) :
  Dict.get k (Dict.del k d) = None.
Proof.
  unfold Dict.del. induction d as [|[k' v'] d IH]; simpl; [reflexivity|].
  destruct (String.eqb_spec k' k) as [E|N]; simpl; [exact IH|].
  destruct (String.eqb_spec k' k); [contradiction|exact IH].
Qed.

Lemma Dict_get_del_other (k k' : string) (d : Dict.t V) :
  k' <> k -> Dict.get k' (Dict.del k d) = Dict.get k' d.
Proof.
  intros N. unfold Dict.del.
  induction d as [|[k0 v0] d IH]; simpl; [reflexivity|].
  destruct (String.eqb_spec k0 k) as [E|N0]; simpl.
  - subst k0. destruct (String.eqb_spec k k'); [congruence|exact IH].
  - destruct (String.eqb_spec k0 k'); [reflexivity|exact IH].
Qed.
End DictFacts.



(** X17: the detail page hands a template the comments of the post it
    shows and of no other: when the GET path renders, the post under the
    key is visible to the viewer, the context carries an empty comment
    form and exactly the comments whose post is that key, and every other
    entry of the context is the one [super()] put there. *)
Theorem X17_detail_page_context
  (db : DB) (now : Z) (viewer : RequestUser) (k : Z)
  (super_context context : Context) :
  PostDetailView_get db now viewer k super_context = Ok context ->
  (exists p, PostDetailView_get_object db now viewer k = Ok p)
  /\ Dict.get "form" context = Some ctx_comment_form
  /\ (exists cs,
         Dict.get "comments" context = Some (ctx_comments cs)
         /\ forall c, In c cs <-> In c (comments db) /\ Comment.post c = k)
  /\ (forall key, key <> "form" -> key <> "comments" ->
                  Dict.get key context = Dict.get key super_context).
Proof.
  unfold PostDetailView_get.
  destruct (PostDetailView_get_object db now viewer k) as [p|r] eqn:Hget;
    [|discriminate].
  unfold bind. intros [= <-].
  assert (Hk : Post.pk p = k).
  { unfold PostDetailView_get_object in Hget.
    destruct (Orm.get_object_or_404 _ (posts db)) as [q|] eqn:Hq;
      [|discriminate].
    apply get_object_or_404_found in Hq. destruct Hq as [_ Hq].
    apply Z.eqb_eq in Hq. unfold bind in Hget.
    destruct (negb (is_user (Post.author q) viewer)).
    - destruct (negb _); [discriminate|]. now injection Hget as <-.
    - now injection Hget as <-. }
  unfold PostDetailView_get_context_data.
  split; [now exists p|]. split; [|split].
  - rewrite Dict_get_set_other by discriminate. apply Dict_get_set_same.
  - eexists. split; [apply Dict_get_set_same|].
    intros c. unfold Post_comments. rewrite filter_In, Z.eqb_eq, Hk.
    reflexivity.
  - intros key Hform Hcomments.
    now rewrite !Dict_get_set_other by assumption.
Qed.

Lemma X17_witness :
  Dict.get "form"
    (PostDetailView_get_context_data Sample.db Sample.live_post
       [("form", ctx_other "stale")])
  = Some ctx_comment_form.
Proof.
  apply (X17_detail_page_context
           Sample.db Sample.now AnonymousUser 1
           [("form", ctx_other "stale")]
           (PostDetailView_get_context_data Sample.db Sample.live_post
              [("form", ctx_other "stale")])).
  reflexivity.
Defined.

(** X18: the two delete pages.  The context of the comment-delete page
    has no [form] entry, whether [super()] put one there or not, and the
    context of the post-delete page has the post form bound to the post
    being deleted, whatever [super()] had under [form]; every other entry
    is passed on as it is. *)
Theorem X18_delete_page_forms
  (self_object : Post.t) (super_context : Context) :
  Dict.get "form" (CommentDeleteView_get_context_data super_context) = None
  /\ Dict.contains "form"
       (CommentDeleteView_get_context_data super_context) = false
  /\ Dict.get "form"
       (PostDeleteView_get_context_data self_object super_context)
     = Some (ctx_post_form self_object)
  /\ (forall key, key <> "form" ->
         Dict.get key (CommentDeleteView_get_context_data super_context)
         = Dict.get key super_context
         /\ Dict.get key
              (PostDeleteView_get_context_data self_object super_context)
            = Dict.get key super_context).
Proof.
  assert (Hnone : Dict.get "form"
                    (CommentDeleteView_get_context_data super_context)
                  = None).
  { unfold CommentDeleteView_get_context_data, Dict.contains.
    destruct (Dict.get "form" super_context) eqn:Hform.
    - apply Dict_get_del_same.
    - exact Hform. }
  split; [exact Hnone|]. split; [|split].
  - unfold Dict.contains. now rewrite Hnone.
  - apply Dict_get_set_same.
  - intros key Hkey. split.
    + unfold CommentDeleteView_get_context_data.
      destruct (Dict.contains "form" super_context); [|reflexivity].
      now apply Dict_get_del_other.
    + now apply Dict_get_set_other.
Qed.

(** X19: the category page and the profile page name what they show:
    when the category page renders, its context has under [category] a
    published category of the store with the slug of the URL; when the
    profile page renders, its context has under [profile] a user of the
    store with the handle of the URL. *)
Theorem X19_list_page_contexts
  (db : DB) (now : Z) (viewer : RequestUser) (super_context : Context) :
  (forall category_slug l context,
      CategoryListView_get db now category_slug super_context
      = Ok (l, context) ->
      exists c,
        Dict.get "category" context = Some (ctx_category c)
        /\ In c (categories db)
        /\ Category.slug c = category_slug
        /\ Category.is_published c = true
        /\ CategoryListView_get_queryset db now category_slug = Ok (c, l))
  /\ (forall username l context,
         ProfileView_get db now viewer username super_context
         = Ok (l, context) ->
         exists a,
           Dict.get "profile" context = Some (ctx_user a)
           /\ In a (users db)
           /\ User.username a = username
           /\ ProfileView_get_queryset db now viewer username = Ok (a, l)).
Proof.
  split.
  - intros s l context. unfold CategoryListView_get.
    destruct (CategoryListView_get_queryset db now s) as [[c l']|] eqn:Hq;
      [|discriminate].
    unfold bind. cbn [fst snd]. intros [= <- <-].
    exists c. split; [apply Dict_get_set_same|].
    unfold CategoryListView_get_queryset in Hq.
    destruct (Orm.get_object_or_404 _ (categories db)) as [c'|] eqn:Hget;
      [|discriminate].
    unfold bind in Hq. injection Hq as -> _.
    apply get_object_or_404_found in Hget. destruct Hget as [Hin Hc].
    apply andb_true_iff in Hc. destruct Hc as [Hslug Hpub].
    apply String.eqb_eq in Hslug. auto.
  - intros n l context. unfold ProfileView_get.
    destruct (ProfileView_get_queryset db now viewer n) as [[a l']|] eqn:Hq;
      [|discriminate].
    unfold bind. cbn [fst snd]. intros [= <- <-].
    exists a. split; [apply Dict_get_set_same|].
    unfold ProfileView_get_queryset in Hq.
    destruct (Orm.get_object_or_404 _ (users db)) as [a'|] eqn:Hget;
      [|discriminate].
    unfold bind in Hq.
    apply get_object_or_404_found in Hget. destruct Hget as [Hin Hname].
    apply String.eqb_eq in Hname.
    destruct (is_user (User.pk a') viewer); injection Hq as -> _; auto.
Qed.

Lemma X19_witness :
  exists c,
    Dict.get "category"
      (CategoryListView_get_context_data Sample.travel []) 
    = Some (ctx_category c)
    /\ In c (categories Sample.db)
    /\ Category.slug c = "travel"
    /\ Category.is_published c = true
    /\ CategoryListView_get_queryset Sample.db Sample.now "travel"
       = Ok (c, [Sample.live_post; Sample.bobs]).
Proof.
  apply (X19_list_page_contexts Sample.db Sample.now AnonymousUser []).
  reflexivity.
Defined.

(** ** Profile update, then read *)

Lemma update_existing {A : Type} (pk : A -> Z) (row : A) (rows : list A) :
  (exists r, In r rows /\ pk r = pk row) ->
  Orm.update pk row rows
  = map (fun r => if pk r =? pk row then row else r) rows.
Proof.
  intros (r & Hr & E). unfold Orm.update.
  assert (Hex : existsb (fun x => pk x =? pk row) rows = true).
  { apply existsb_exists. exists r. split; [exact Hr|]. now apply Z.eqb_eq. }
  now rewrite Hex.
Qed.

Lemma update_keeps_keys {A : Type} (pk : A -> Z) (row : A) (rows : list A) :
  (exists r, In r rows /\ pk r = pk row) ->
  map pk (Orm.update pk row rows) = map pk rows.
Proof.
  intros Hex. rewrite (update_existing pk row rows Hex).
  rewrite map_map. apply map_ext. intros r.
  now destruct (Z.eqb_spec (pk r) (pk row)).
Qed.

Lemma update_puts_row {A : Type} (pk : A -> Z) (row : A) (rows : list A) :
  In row (Orm.update pk row rows).
Proof.
  unfold Orm.update.
  destruct (existsb (fun r => pk r =? pk row) rows) eqn:Hex.
  - apply existsb_exists in Hex. destruct Hex as (r & Hr & E).
    apply in_map_iff. exists r. now rewrite E.
  - apply in_app_iff. right. now left.
Qed.

(** X20: a profile update that goes through replaces the viewer's row in
    place: the user table has the same keys in the same order (so as many
    users as before, and unique keys stay unique), and a lookup under the
    viewer's key now finds the row the form made. *)
Theorem X20_profile_update_replaces_own_row
  (db : DB) (u : User.t) (kwargs : Kwargs) (form : ModelForm User.t) :
  NoDup (map User.pk (users db)) ->
  (exists row, In row (users db) /\ User.pk row = User.pk u) ->
  is_valid form = true ->
  let db' := fst (ProfileUpdateView_post db (Authenticated u) kwargs form) in
  let saved := User.set_pk (User.pk u) (cleaned form u) in
  map User.pk (users db') = map User.pk (users db)
  /\ Orm.get (fun x => User.pk x =? User.pk u) (users db') = Orm.Found saved.
Proof.
  intros Hnd Hrow Hvalid db' saved. subst db'.
  unfold ProfileUpdateView_post, LoginRequiredMixin_dispatch,
    ProfileUpdateView_get_object.
  rewrite Hvalid. cbn [fst users with_users]. fold saved.
  assert (Hkeys : map User.pk (Orm.update User.pk saved (users db))
                  = map User.pk (users db))
    by (apply update_keeps_keys; exact Hrow).
  split; [exact Hkeys|].
  apply (get_by_key User.pk (Orm.update User.pk saved (users db)) saved).
  - now rewrite Hkeys.
  - apply update_puts_row.
Qed.

Lemma X20_witness :
  Orm.get (fun x => User.pk x =? 2)
    (users (fst (ProfileUpdateView_post Sample.db (Authenticated Sample.bob)
                   [] Sample.user_form)))
  = Orm.Found (User.mk 2 "bobby" "Bob" "B" "bob@example.org").
Proof.
  apply (X20_profile_update_replaces_own_row
           Sample.db Sample.bob [] Sample.user_form).
  - simpl. repeat (constructor; [simpl; lia|]). constructor.
  - exists Sample.bob. split; [right; now left | reflexivity].
  - reflexivity.
Defined.

(** X21: after a profile update the viewer is sent to the profile page of
    the handle they have just saved, not of the old one; when no other
    user has that handle the page resolves to the saved row and lists all
    of the viewer's posts, live or not. *)
Theorem X21_profile_update_redirect_resolves
  (db : DB) (now : Z) (u : User.t) (kwargs : Kwargs)
  (form : ModelForm User.t) :
  NoDup (map User.pk (users db)) ->
  (exists row, In row (users db) /\ User.pk row = User.pk u) ->
  is_valid form = true ->
  let saved := User.set_pk (User.pk u) (cleaned form u) in
  (forall x, In x (users db) -> User.pk x <> User.pk u ->
             User.username x <> User.username saved) ->
  exists db' l,
    ProfileUpdateView_post db (Authenticated u) kwargs form
    = (db', HttpResponseRedirect (url_profile (User.username saved)))
    /\ ProfileView_get_queryset db' now (Authenticated saved)
         (User.username saved) = Ok (saved, l)
    /\ forall p, In p l <-> In p (posts db) /\ Post.author p = User.pk u.
Proof.
  intros Hnd Hrow Hvalid saved Hfree.
  unfold ProfileUpdateView_post, LoginRequiredMixin_dispatch,
    ProfileUpdateView_get_object.
  rewrite Hvalid. fold saved.
  eexists. eexists. split; [reflexivity|].
  unfold ProfileView_get_queryset. cbn [users with_users].
  assert (Hkeys : map User.pk (Orm.update User.pk saved (users db))
                  = map User.pk (users db))
    by (apply update_keeps_keys; exact Hrow).
  assert (Hsame : filter
                    (fun x => String.eqb (User.username x)
                                (User.username saved))
                    (Orm.update User.pk saved (users db))
                  = filter (fun x => User.pk x =? User.pk saved)
                      (Orm.update User.pk saved (users db))).
  { apply filter_ext_in. intros x Hx.
    rewrite (update_existing User.pk saved (users db) Hrow) in Hx.
    apply in_map_iff in Hx. destruct Hx as (r & <- & Hr).
    destruct (Z.eqb_spec (User.pk r) (User.pk saved)) as [E|N].
    - now rewrite String.eqb_refl, Z.eqb_refl.
    - destruct (Z.eqb_spec (User.pk r) (User.pk saved)); [contradiction|].
      apply String.eqb_neq. apply Hfree; trivial. }
  assert (Hget : Orm.get_object_or_404
                   (fun x => String.eqb (User.username x)
                               (User.username saved))
                   (Orm.update User.pk saved (users db)) = Ok saved).
  { unfold Orm.get_object_or_404, Orm.get. rewrite Hsame.
    rewrite (filter_by_key User.pk); [reflexivity| |apply update_puts_row].
    now rewrite Hkeys. }
  rewrite Hget. unfold bind.
  assert (E : is_user (User.pk saved) (Authenticated saved) = true)
    by apply Z.eqb_refl.
  rewrite E. split; [reflexivity|].
  intros p. rewrite filter_In, base_queryset_In, Z.eqb_eq. reflexivity.
Qed.

Lemma X21_witness :
  exists db' l,
    ProfileUpdateView_post Sample.db (Authenticated Sample.bob) []
      Sample.user_form
    = (db', HttpResponseRedirect (url_profile "bobby"))
    /\ ProfileView_get_queryset db' Sample.now
         (Authenticated (User.mk 2 "bobby" "Bob" "B" "bob@example.org"))
         "bobby"
       = Ok (User.mk 2 "bobby" "Bob" "B" "bob@example.org", l)
    /\ forall p, In p l <-> In p (posts Sample.db) /\ Post.author p = 2.
Proof.
  apply (X21_profile_update_redirect_resolves
           Sample.db Sample.now Sample.bob [] Sample.user_form).
  - simpl. repeat (constructor; [simpl; lia|]). constructor.
  - exists Sample.bob. split; [right; now left | reflexivity].
  - reflexivity.
  - simpl. intros x [<-|[<-|[]]] Hx; simpl in *; [discriminate|].
    now elim Hx.
Defined.

(** ** Comment, then the redirect *)

(** X22: after a comment is created the viewer is sent to the page of the
    post, and that page is answered for them as it was before the
    comment: it opens when the post is their own or live, and it is a 404
    when the post is someone else's and not live, although the comment
    has been stored. *)
Theorem X22_comment_redirect_may_be_404
  (db : DB) (now : Z) (u : User.t) (P : Post.t)
  (form : ModelForm Comment.t) :
  NoDup (map Post.pk (posts db)) ->
  In P (posts db) ->
  is_valid form = true ->
  exists db',
    CommentCreateView_dispatch db (Authenticated u) (Post.pk P) form
    = (db', HttpResponseRedirect (url_post_detail (Post.pk P)))
    /\ (List.length (comments db') = S (List.length (comments db)))
    /\ (is_user (Post.author P) (Authenticated u) = true
        \/ live now P = true ->
        PostDetailView_get_object db' now (Authenticated u) (Post.pk P)
        = Ok P)
    /\ (is_user (Post.author P) (Authenticated u) = false ->
        live now P = false ->
        PostDetailView_get_object db' now (Authenticated u) (Post.pk P)
        = Raise Http404).
Proof.
  intros Hnd HP Hvalid.
  rewrite (CommentCreateView_dispatch_run db (Authenticated u) (Post.pk P)
             form P (get_object_or_404_by_key Post.pk _ _ Hnd HP)).
  rewrite Hvalid. eexists. split; [reflexivity|].
  unfold PostDetailView_get_object. cbn [posts comments with_comments].
  rewrite (get_object_or_404_by_key Post.pk _ _ Hnd HP). unfold bind.
  fold (live now P). split; [|split].
  - rewrite length_app. simpl. lia.
  - destruct (is_user (Post.author P) (Authenticated u)); [reflexivity|].
    intros [H|H]; [discriminate|]. now rewrite H.
  - intros H1 H2. now rewrite H1, H2.
Qed.

Lemma X22_witness :
  exists db',
    CommentCreateView_dispatch Sample.db (Authenticated Sample.bob) 3
      Sample.comment_form
    = (db', HttpResponseRedirect (url_post_detail 3))
    /\ PostDetailView_get_object db' Sample.now (Authenticated Sample.bob) 3
       = Raise Http404.
Proof.
  destruct (X22_comment_redirect_may_be_404
              Sample.db Sample.now Sample.bob Sample.future
              Sample.comment_form Sample_posts_keys
              (or_intror (or_intror (or_introl eq_refl))) eq_refl)
    as (db' & Hrun & _ & _ & Hhidden).
  exists db'. split; [exact Hrun|]. apply Hhidden; reflexivity.
Defined.
